(** * nba-onoff-fetch: the fetch loops and the season-totals merge

    A shallow embedding of [fetch_season_totals.py] and [fetch_onoff.py].

    - A pandas numeric column is a column of binary64 values, so a cell is a
      primitive [float]; integer columns are embedded exactly (the counts the
      API returns are far below 2^53).  Series arithmetic on numeric columns
      is the IEEE operation applied row by row: it never raises, also on a
      zero divisor.
    - The remote service is an oracle [remote]: the reply to the n-th request
      of the run.  The state of a run is the number of requests sent, the
      files on disk and the trace of the effects performed (requests, sleeps,
      file writes), in the order they happened.  [print] calls, the clock
      and [os.makedirs] are left out.
    - A file holds a table: [pd.read_csv] gives back the table [to_csv]
      wrote.  A season-totals table has the key column "year" and the five
      base columns of [add_derived_cols], all numeric.
    - A Python exception is a value of [Exn]; [try]/[except Exception] is a
      [match] on the sum.
    - Two exceptions of [fetch_season_totals.update_csv] are outside the
      model.  [pd.read_csv] of a file that has its header and no rows gives
      columns of dtype object, and arithmetic on those is Python's, which
      raises [ZeroDivisionError] on a zero divisor; and [to_csv] raises
      [OSError] when the directory of the file is missing, which
      [fetch_season_totals.py] never creates.  Both are uncaught and end the
      run.  The model has numeric columns and directories that exist: where
      the code returns a table it is the table of the model, and a statement
      that the merge goes through is, of the code, a statement about a file
      that holds rows.
    - The [while] loop of [pull_block] runs on fuel; [retry_loop_run] shows
      that the fuel [pull_block] gives it is never used up. *)

From Stdlib Require Import ZArith Lia Floats DecimalString DecimalZ DecimalPos Ascii.
From stdpp Require Import base gmap strings list sorting.

Set Warnings "-inexact-float".

(* ------------------------------------------------------------------ *)
(** ** Python runtime pieces shared by the two scripts                 *)
(* ------------------------------------------------------------------ *)

(** [str(n)] for an integer. *)
Definition str (n : Z) : string := NilZero.string_of_int (Z.to_int n).

(** [s[-2:]]: the last two characters (all of [s] when it is shorter). *)
Definition last2 (s : string) : string :=
  String.substring (String.length s - 2) 2 s.

(** [f"{year - 1}-{str(year)[-2:]}"] *)
Definition season_label (year : Z) : string :=
  str (year - 1) +:+ "-" +:+ last2 (str year).

(** [range(lo, hi)] *)
Definition range (lo hi : Z) : list Z :=
  (λ i : nat, (lo + Z.of_nat i)%Z) <$> seq 0 (Z.to_nat (hi - lo)).

Inductive Exn : Type :=
  | ConnectionError                 (* requests.get raised: transport, timeout *)
  | HTTPError (status_code : Z)     (* raise_for_status *)
  | JSONDecodeError                 (* resp.json() raised *)
  | KeyError (key : string)         (* a missing dict key or column *)
  | AttributeError.                 (* an attribute of None *)

Record Request : Type := mkRequest {
  url : string;
  params : list (string * string);
  timeout : Z * Z
}.

(** What the remote sends back: nothing (the call raises), or a status line
    and a body; the body is [None] when it is not JSON. *)
Inductive Reply (P : Type) : Type :=
  | Unreachable
  | Response (status_code : Z) (json : option P).
Arguments Unreachable {P}.
Arguments Response {P} status_code json.

Inductive Event : Type :=
  | ERequest (r : Request)
  | ESleep (seconds : Z)
  | EWrite (path : string).

Record World (F : Type) : Type := mkWorld {
  sent : nat;
  files : gmap string F;
  trace : list Event
}.
Arguments mkWorld {F} sent files trace.
Arguments sent {F} w.
Arguments files {F} w.
Arguments trace {F} w.

(** Computations that read and change the world. *)
Definition M (F A : Type) : Type := World F → A * World F.

#[global] Instance M_ret {F} : MRet (M F) := λ A a w, (a, w).

#[global] Instance M_bind {F} : MBind (M F) :=
  λ A B k c w, let (a, w') := c w in k a w'.

Section Effects.
Context {F P : Type}.
Variable remote : nat → Request → Reply P.

(** [time.sleep(seconds)] *)
Definition sleep (seconds : Z) : M F unit :=
  λ w, (tt, mkWorld (sent w) (files w) (trace w ++ [ESleep seconds])).

(** [requests.get(url, params=..., headers=HEADERS, timeout=...)]: one
    request to the remote. *)
Definition requests_get (r : Request) : M F (Reply P) :=
  λ w, (remote (sent w) r,
        mkWorld (S (sent w)) (files w) (trace w ++ [ERequest r])).

(** [df.to_csv(path, index=False)]: the file is replaced in one write. *)
Definition to_csv (path : string) (df : F) : M F unit :=
  λ w, (tt, mkWorld (sent w) (<[path := df]> (files w)) (trace w ++ [EWrite path])).

(** [path.exists()] and [pd.read_csv(path)] *)
Definition read_csv (path : string) : M F (option F) :=
  λ w, (files w !! path, w).
End Effects.

(** The paths written to, in order, in a trace. *)
Definition written (events : list Event) : list string :=
  omap (λ e, match e with EWrite path => Some path | _ => None end) events.

(** [Response.raise_for_status()] of the requests library: an [HTTPError]
    for a 4xx or 5xx status, nothing otherwise. *)
Definition raise_for_status (status_code : Z) : option Exn :=
  if ((400 <=? status_code) && (status_code <? 600))%Z
  then Some (HTTPError status_code) else None.

(* ------------------------------------------------------------------ *)
(** ** fetch_season_totals.py                                          *)
(* ------------------------------------------------------------------ *)

Module fetch_season_totals.

(** One row of a season-totals table: the key, the five base columns the
    derived columns read, the two derived columns, and the remaining
    columns, which no operation here looks at. *)
Record Row : Type := mkRow {
  year : Z;
  FG3A : float;
  FG2A : float;
  FTA : float;
  Turnovers : float;
  OffRebounds : float;
  FTA_Rate : float;
  TOV_pct : float;
  others : list (string * float)
}.

Abbreviation DataFrame := (list Row).

(** The JSON payload of [get-totals]: [data["single_row_table_data"]],
    [None] when the key is missing. *)
Record Payload : Type := mkPayload {
  single_row_table_data : option Row
}.

(** [row["year"] = year] *)
Definition set_year (y : Z) (r : Row) : Row :=
  mkRow y (FG3A r) (FG2A r) (FTA r) (Turnovers r) (OffRebounds r)
        (FTA_Rate r) (TOV_pct r) (others r).

(** [current_nba_season()], given [datetime.utcnow()] as (year, month). *)
Definition current_nba_season (now_year now_month : Z) : Z :=
  if (10 <=? now_month)%Z then (now_year + 1)%Z else now_year.

Definition max_retries : Z := 15.

(** The body of [add_derived_cols] on one row. *)
Definition derive_row (r : Row) : Row :=
  let fga := (FG3A r + FG2A r)%float in
  mkRow (year r) (FG3A r) (FG2A r) (FTA r) (Turnovers r) (OffRebounds r)
        (FTA r / fga)%float
        (100 * Turnovers r /
           (fga + (0.44 * FTA r) + Turnovers r - OffRebounds r))%float
        (others r).

Definition add_derived_cols (df : DataFrame) : DataFrame := derive_row <$> df.

(** [df.drop_duplicates(subset=["year"], keep="last")] *)
Fixpoint drop_duplicates (df : DataFrame) : DataFrame :=
  match df with
  | [] => []
  | r :: rest =>
      if bool_decide (year r ∈ year <$> rest)
      then drop_duplicates rest
      else r :: drop_duplicates rest
  end.

(** [df.sort_values("year")]: ascending.  pandas sorts with quicksort; on
    distinct keys (which is how [update_csv] calls it) every sorting
    algorithm gives the same table, see [sort_values_unique]. *)
Fixpoint sort_insert (r : Row) (df : DataFrame) : DataFrame :=
  match df with
  | [] => [r]
  | r' :: rest =>
      if (year r <=? year r')%Z then r :: r' :: rest
      else r' :: sort_insert r rest
  end.

Definition sort_values (df : DataFrame) : DataFrame :=
  foldr sort_insert [] df.

(** Rows in strictly ascending order of the key: sorted, and no key twice. *)
Definition strictly_ascending (df : DataFrame) : Prop :=
  StronglySorted (λ a b, (year a < year b)%Z) df.

(** [existing[existing["year"] != year]] when the file exists, and
    [pd.DataFrame()] when it does not. *)
Definition kept (on_disk : option DataFrame) (year_ : Z) : DataFrame :=
  match on_disk with
  | Some existing => filter (λ r, year r ≠ year_) existing
  | None => []
  end.

(** The table [update_csv] builds from the kept rows and the new ones. *)
Definition merged (existing new_data : DataFrame) : DataFrame :=
  add_derived_cols (sort_values (drop_duplicates (existing ++ new_data))).

Section Run.
Variable remote : nat → Request → Reply Payload.
Variable script_dir : string.

(** [DATA_DIR = Path(__file__).resolve().parent / "data"] *)
Definition DATA_DIR : string := script_dir +:+ "/data".

Definition totals_request (year : Z) (season_type : string) (leverage : bool)
  : Request :=
  mkRequest "https://api.pbpstats.com/get-totals/nba"
    ([("Season", season_label year); ("SeasonType", season_type);
      ("Type", "Team")]
     ++ (if leverage then [("Leverage", "Medium,High,VeryHigh")] else []))
    (10, 30)%Z.

(** What the [try] block makes of the reply: [resp.json()],
    [data["single_row_table_data"]], [row["year"] = year] and
    [pd.DataFrame([row])], or the exception raised on the way.  The
    status code is not looked at. *)
Definition read_totals (year : Z) (resp : Reply Payload) : Exn + DataFrame :=
  match resp with
  | Unreachable => inl ConnectionError
  | Response _ None => inl JSONDecodeError
  | Response _ (Some data) =>
      match single_row_table_data data with
      | None => inl (KeyError "single_row_table_data")
      | Some row => inr [set_year year row]
      end
  end.

(** The attempt that sends the n-th request of the run fails. *)
Definition attempt_fails (year : Z) (season_type : string) (leverage : bool)
    (n : nat) : Prop :=
  ∃ e, read_totals year (remote n (totals_request year season_type leverage))
       = inl e.

(** The [try] block of one attempt. *)
Definition attempt_totals (year : Z) (season_type : string) (leverage : bool)
  : M DataFrame (Exn + DataFrame) :=
  sleep 2;;
  resp ← requests_get remote (totals_request year season_type leverage);
  mret (read_totals year resp).

(** [for attempt in range(1, max_retries + 1)]; the result is [None] when
    the loop runs off its end without a [return]. *)
Fixpoint fetch_totals_loop (attempts : list Z) (year : Z)
    (season_type : string) (leverage : bool) : M DataFrame (option DataFrame) :=
  match attempts with
  | [] => mret None
  | attempt :: rest =>
      r ← attempt_totals year season_type leverage;
      match r with
      | inr df => mret (Some df)
      | inl _ =>
          if (attempt <? max_retries)%Z
          then sleep 2;; fetch_totals_loop rest year season_type leverage
          else mret (Some [])
      end
  end.

Definition fetch_totals (year : Z) (season_type : string) (leverage : bool)
  : M DataFrame (option DataFrame) :=
  fetch_totals_loop (range 1 (max_retries + 1)) year season_type leverage.

(** [update_csv].  An existing file always has its header, so the only
    table without a "year" column is the concatenation of two
    [pd.DataFrame()]: no file and no new rows; [sort_values("year")]
    raises there.  The columns are numeric and the directory of [csv_path]
    exists: the [ZeroDivisionError] of a file without rows and the [OSError]
    of a missing directory are not modelled. *)
Definition update_csv (csv_path : string) (new_data : DataFrame) (year_ : Z)
  : M DataFrame (Exn + DataFrame) :=
  on_disk ← read_csv csv_path;
  let existing := kept on_disk year_ in
  let combined := existing ++ new_data in
  let combined := drop_duplicates combined in
  match on_disk, new_data with
  | None, [] => mret (inl (KeyError "year"))
  | _, _ =>
      let combined := sort_values combined in
      let combined := add_derived_cols combined in
      to_csv csv_path combined;;
      mret (inr combined)
  end.

(** One of the four numbered steps of [main]: fetch, and update the file
    when the fetched table is not empty.  The result is the exception
    that ends the run, if any. *)
Definition sync (file_name season_type : string) (leverage : bool) (year : Z)
  : M DataFrame (option Exn) :=
  data ← fetch_totals year season_type leverage;
  match data with
  | None => mret (Some AttributeError)
  | Some [] => mret None
  | Some data =>
      r ← update_csv (DATA_DIR +:+ "/" +:+ file_name) data year;
      mret (match r with inl e => Some e | inr _ => None end)
  end.

(** [args.year or current_nba_season()]: a missing [--year] and
    [--year 0] both fall back on the current season. *)
Definition target_year (arg_year : option Z) (now_year now_month : Z) : Z :=
  match arg_year with
  | Some y => if (y =? 0)%Z then current_nba_season now_year now_month else y
  | None => current_nba_season now_year now_month
  end.

(** [main]: [arg_year] is [args.year]; the result is the exit status. *)
Definition main (arg_year : option Z) (now_year now_month : Z) : M DataFrame Z :=
  let year := target_year arg_year now_year now_month in
  e ← sync "season_totals.csv" "Regular Season" false year;
  match e with Some _ => mret 1%Z | None =>
  e ← sync "season_totals_playoffs.csv" "Playoffs" false year;
  match e with Some _ => mret 1%Z | None =>
  e ← sync "season_totals_leverage.csv" "Regular Season" true year;
  match e with Some _ => mret 1%Z | None =>
  e ← sync "season_totals_playoffs_leverage.csv" "Playoffs" true year;
  match e with Some _ => mret 1%Z | None => mret 0%Z
  end end end end.
End Run.

End fetch_season_totals.

(* ------------------------------------------------------------------ *)
(** ** fetch_onoff.py                                                  *)
(* ------------------------------------------------------------------ *)

Module fetch_onoff.

Inductive Cell : Type :=
  | CInt (n : Z)
  | CFloat (x : float)
  | CStr (s : string)
  | CBool (b : bool).

(** A WOWY table: one dict per row, keyed by column name; a column a row
    has no entry for is missing (NaN) in that row. *)
Abbreviation DataFrame := (list (gmap string Cell)).

(** The JSON payload of [get-wowy-stats]: [data["multi_row_table_data"]],
    [None] when the key is missing. *)
Record Payload : Type := mkPayload {
  multi_row_table_data : option (list (gmap string Cell))
}.

Definition WOWY_URL : string := "https://api.pbpstats.com/get-wowy-stats/nba".
Definition REFERENCE_YEAR : Z := 2025.
Definition SLEEP_BETWEEN : Z := 1.
Definition MAX_RETRIES : Z := 5.
Definition RETRY_DELAY : Z := 3.
Definition REQUEST_TIMEOUT : Z * Z := (10, 30)%Z.

(** A row of [index_master.csv]; [has_na] says that some cell of the row
    is empty, which is all [dropna] looks at. *)
Record IndexRow : Type := mkIndexRow {
  team : string;
  year : Z;
  team_id : Z;
  has_na : bool
}.

#[global] Instance IndexRow_eq_dec : EqDecision IndexRow.
Proof. solve_decision. Defined.

(** [Series.unique()] and [drop_duplicates()]: the first occurrence of
    each value, in order of appearance. *)
Fixpoint unique_from {A} `{EqDecision A} (seen l : list A) : list A :=
  match l with
  | [] => []
  | x :: rest =>
      if decide (x ∈ seen) then unique_from seen rest
      else x :: unique_from (x :: seen) rest
  end.

Definition unique {A} `{EqDecision A} (l : list A) : list A := unique_from [] l.

(** [sorted(...)] on integers *)
Definition sorted (l : list Z) : list Z := merge_sort Z.le l.

(** [fetch_team_ids], on the table [pd.read_csv(INDEX_MASTER_URL)] gave. *)
Definition fetch_team_ids (index_master : list IndexRow) (year_ : Z) : list Z :=
  let df := filter (λ r, has_na r = false) index_master in
  let df := filter (λ r, team r ≠ "TOT") df in
  let df := unique (filter (λ r, year r = year_) df) in
  sorted (unique (team_id <$> df)).

(** [get_filename] *)
Definition get_filename (team_id : Z) (opp leverage : bool) : string :=
  let name := str team_id in
  let name := if opp then name +:+ "_vs" else name in
  let name := if leverage then name +:+ "_leverage" else name in
  name +:+ ".csv".

(** ["Corner3FGM" in df.columns] *)
Definition has_column (c : string) (df : DataFrame) : bool :=
  existsb (λ row, bool_decide (is_Some (row !! c))) df.

(** [df[c] = v] *)
Definition set_column (c : string) (v : Cell) (df : DataFrame) : DataFrame :=
  (λ row, <[c := v]> row) <$> df.

(** [output_dir = f"output/data/{year}"] and
    [filepath = os.path.join(output_dir, filename)] *)
Definition output_dir (year_ : Z) : string := "output/data/" +:+ str year_.

Definition filepath (year_ team_id : Z) (opp leverage : bool) : string :=
  output_dir year_ +:+ "/" +:+ get_filename team_id opp leverage.

(** The identity columns [pull_block] adds to a fetched table, and the
    "Corner3FGM" column when the table has none. *)
Definition tag_frame (year_ : Z) (season : string) (team_id : Z) (opp : bool)
    (df : DataFrame) : DataFrame :=
  let df := set_column "team_id" (CInt team_id) df in
  let df := set_column "year" (CInt year_) df in
  let df := set_column "season" (CStr season) df in
  let df := set_column "team_vs" (CBool opp) df in
  if has_column "Corner3FGM" df then df
  else set_column "Corner3FGM" (CInt 0) df.

(** The accumulators of [pull_block]. *)
Record Block : Type := mkBlock {
  team_frames : list DataFrame;
  vs_frames : list DataFrame;
  fail_list : list (Z * string)
}.

(** What a run of [main] leaves behind: the two blocks, the failures it
    prints and the status [sys.exit] is called with (0 when it is not). *)
Record Report : Type := mkReport {
  lev : Block;
  nl : Block;
  all_fails : list (Z * string);
  exit_status : Z
}.


Section Run.
Variable remote : nat → Request → Reply Payload.

(** The request [lineuppull] sends. *)
Definition wowy_request (team_id : Z) (season : string) (opp leverage : bool)
  : Request :=
  mkRequest WOWY_URL
    ([("TeamId", str team_id); ("Season", season);
      ("SeasonType", "Regular Season");
      ("Type", if opp then "Opponent" else "Team")]
     ++ (if leverage then [("Leverage", "Medium,High,VeryHigh")] else []))
    REQUEST_TIMEOUT.

(** What [lineuppull] makes of the reply: [resp.raise_for_status()],
    [resp.json()], [data["multi_row_table_data"]] and the DataFrame of
    the rows, or the exception raised on the way. *)
Definition read_wowy (resp : Reply Payload) : Exn + DataFrame :=
  match resp with
  | Unreachable => inl ConnectionError
  | Response status_code json =>
      match raise_for_status status_code with
      | Some e => inl e
      | None =>
          match json with
          | None => inl JSONDecodeError
          | Some data =>
              match multi_row_table_data data with
              | None => inl (KeyError "multi_row_table_data")
              | Some combos => inr combos
              end
          end
      end
  end.

(** [lineuppull] *)
Definition lineuppull (team_id : Z) (season : string) (opp leverage : bool)
  : M DataFrame (Exn + DataFrame) :=
  resp ← requests_get remote (wowy_request team_id season opp leverage);
  mret (read_wowy resp).

(** [while attempts < MAX_RETRIES and not success].  [success] and [df]
    are assigned together: [Some df] is [success = True] with that [df].
    The result is [None] when [fuel] iterations were not enough. *)
Fixpoint retry_loop (fuel : nat) (team_id : Z) (season : string)
    (opp leverage : bool) (attempts : Z) (success : option DataFrame)
  : M DataFrame (option (Z * option DataFrame)) :=
  if ((attempts <? MAX_RETRIES)%Z && negb (bool_decide (is_Some success)))
  then
    match fuel with
    | O => mret None
    | S fuel =>
        r ← lineuppull team_id season opp leverage;
        match r with
        | inr df => retry_loop fuel team_id season opp leverage attempts (Some df)
        | inl _ =>
            let attempts := (attempts + 1)%Z in
            (if (attempts <? MAX_RETRIES)%Z then sleep RETRY_DELAY else mret tt);;
            retry_loop fuel team_id season opp leverage attempts None
        end
    end
  else mret (Some (attempts, success)).

(** The body of [for team_id in team_ids]. *)
Definition pull_unit (year_ : Z) (leverage opp : bool) (team_id : Z) (acc : Block)
  : M DataFrame (option Block) :=
  let season := season_label year_ in
  let side := if opp then "Opponent" else "Team" in
  r ← retry_loop (S (Z.to_nat MAX_RETRIES)) team_id season opp leverage 0 None;
  match r with
  | None => mret None
  | Some (_, None) =>
      mret (Some (mkBlock (team_frames acc) (vs_frames acc)
                          (fail_list acc ++ [(team_id, side)])))
  | Some (_, Some df) =>
      let df := tag_frame year_ season team_id opp df in
      (if decide (2 < length df)
       then to_csv (filepath year_ team_id opp leverage) df else mret tt);;
      let acc := if opp
                 then mkBlock (team_frames acc) (vs_frames acc ++ [df]) (fail_list acc)
                 else mkBlock (team_frames acc ++ [df]) (vs_frames acc) (fail_list acc) in
      sleep SLEEP_BETWEEN;;
      mret (Some acc)
  end.

Fixpoint for_team_ids (year_ : Z) (leverage opp : bool) (team_ids : list Z)
    (acc : Block) : M DataFrame (option Block) :=
  match team_ids with
  | [] => mret (Some acc)
  | team_id :: rest =>
      r ← pull_unit year_ leverage opp team_id acc;
      match r with
      | None => mret None
      | Some acc => for_team_ids year_ leverage opp rest acc
      end
  end.

(** [pull_block]: [for opp in [False, True]] around the loop over teams. *)
Definition pull_block (team_ids : list Z) (year_ : Z) (leverage : bool)
  : M DataFrame (option Block) :=
  r ← for_team_ids year_ leverage false team_ids (mkBlock [] [] []);
  match r with
  | None => mret None
  | Some acc => for_team_ids year_ leverage true team_ids acc
  end.

(** [main].  [index_master] is what [pd.read_csv(INDEX_MASTER_URL)] gave
    inside [fetch_team_ids()]: the table, or the exception it raised,
    which nothing catches.  The result is the exception that ended the
    run, or what the run reports. *)
Definition main (index_master : Exn + list IndexRow) (year_ : Z)
  : M DataFrame (option (Exn + Report)) :=
  match index_master with
  | inl e => mret (Some (inl e))
  | inr index_master =>
      let team_ids := fetch_team_ids index_master REFERENCE_YEAR in
      r ← pull_block team_ids year_ true;
      match r with
      | None => mret None
      | Some lev =>
          r ← pull_block team_ids year_ false;
          match r with
          | None => mret None
          | Some nl =>
              let all_fails := fail_list lev ++ fail_list nl in
              mret (Some (inr (mkReport lev nl all_fails
                                 (match all_fails with [] => 0 | _ => 1 end)%Z)))
          end
      end
  end.
End Run.

End fetch_onoff.

(* ------------------------------------------------------------------ *)
(** ** Vocabulary of the statements                                    *)
(* ------------------------------------------------------------------ *)

(** The file at [path] is the same in [w'] as in [w], and nothing was
    written to it on the way from [w] to [w']. *)
Definition untouched {F} (path : string) (w w' : World F) : Prop :=
  files w' !! path = files w !! path
  ∧ ∃ ps, written (trace w') = written (trace w) ++ ps ∧ path ∉ ps.

(** The frames a block collected for one side. *)
Definition frames_of (opp : bool) (b : fetch_onoff.Block) :=
  if opp then fetch_onoff.vs_frames b else fetch_onoff.team_frames b.



(** The characters [str] produces. *)
Definition numeric (c : ascii) : bool :=
  bool_decide (c ∈ ["-"; "0"; "1"; "2"; "3"; "4"; "5"; "6"; "7"; "8"; "9"]%char).

Fixpoint all_numeric (s : string) : Prop :=
  match s with
  | EmptyString => True
  | String c s => numeric c = true ∧ all_numeric s
  end.

Definition starts_other (s : string) : Prop :=
  match s with
  | EmptyString => False
  | String c _ => numeric c = false
  end.

(* ------------------------------------------------------------------ *)
(** ** Sample inputs                                                   *)
(* ------------------------------------------------------------------ *)

Module Samples.
Import fetch_season_totals.

Definition row (year_ : Z) (fg3a fg2a fta tov oreb : float) : Row :=
  mkRow year_ fg3a fg2a fta tov oreb nan nan [("Points", 100%float)].

(** A file written by hand: out of order, 2025 twice, stale derived
    columns. *)
Definition season_totals_csv : list Row :=
  [ row 2025 11 21 16 13 9; row 2026 1 2 3 4 5; row 2024 12 22 17 14 7;
    row 2025 10 20 15 12 8 ].

Definition disk : World (list Row) :=
  mkWorld 0 {["data/season_totals.csv" := season_totals_csv]} [].

Definition fresh : Row := row 2026 30 60 25 14 10.

(** The remote answers 503 with a body that has the row. *)
Definition error_with_row : nat → Request → Reply Payload :=
  λ _ _, Response 503 (Some (mkPayload (Some fresh))).

Definition empty_disk : World (list Row) := mkWorld 0 ∅ [].

(** The remote cannot be reached. *)
Definition down : nat → Request → Reply Payload := λ _ _, Unreachable.

(** The disk after [fresh] was merged, and the row a later run brings. *)
Definition synced_table : list Row :=
  merged (kept (Some season_totals_csv) 2026) [fresh].

Definition synced : World (list Row) :=
  mkWorld 0 {["data/season_totals.csv" := synced_table]}
    [EWrite "data/season_totals.csv"].

Definition updated : Row := row 2026 31 62 27 15 11.

(** A file in key order with no key twice, whose 2025 row carries derived
    values that are not those of its base columns. *)
Definition stale_csv : list Row :=
  [ mkRow 2025 10 20 15 12 8 0.9 30 [("Points", 100%float)];
    row 2026 1 2 3 4 5 ].

Definition stale_disk : World (list Row) :=
  mkWorld 0 {["data/season_totals.csv" := stale_csv]} [].

(** No field-goal attempts and five free throws. *)
Definition no_attempts : Row := row 2026 0 0 5 1 1.
End Samples.

Module OnOffSamples.
Import fetch_onoff.

Definition empty_disk : World (list (gmap string Cell)) := mkWorld 0 ∅ [].

(** The remote cannot be reached. *)
Definition down : nat → Request → Reply Payload := λ _ _, Unreachable.

Definition combo (minutes : Z) : gmap string Cell := {["Minutes" := CInt minutes]}.

(** The remote answers every request with a table of two rows. *)
Definition two_rows : nat → Request → Reply Payload :=
  λ _ _, Response 200 (Some (mkPayload (Some [combo 10; combo 12]))).

Definition index_master : list IndexRow :=
  [mkIndexRow "ATL" 2025 1610612737 false; mkIndexRow "TOT" 2025 0 false;
   mkIndexRow "ATL" 2025 1610612737 false; mkIndexRow "BOS" 2024 1610612738 false].
End OnOffSamples.

(* ------------------------------------------------------------------ *)
(** ** Vocabulary and samples of the further properties                *)
(* ------------------------------------------------------------------ *)

(** The effects of [n] attempts of [fetch_totals] at the request [r]: two
    seconds before every request and two more after every failed attempt
    but the fifteenth. *)
Definition totals_attempts_trace (r : Request) (n : nat) : list Event :=
  mjoin (replicate (n - 1) [ESleep 2; ERequest r; ESleep 2]) ++ [ESleep 2; ERequest r].

(** The effects of [n] attempts of the retry loop of [pull_block] at the
    request [r]: [RETRY_DELAY] between two attempts. *)
Definition wowy_attempts_trace (r : Request) (n : nat) : list Event :=
  mjoin (replicate (n - 1) [ERequest r; ESleep fetch_onoff.RETRY_DELAY]) ++ [ERequest r].

(** A row of the index that [fetch_team_ids] takes a team from. *)
Definition on_roster (year_ : Z) (r : fetch_onoff.IndexRow) : Prop :=
  fetch_onoff.has_na r = false ∧ fetch_onoff.team r ≠ "TOT"
  ∧ fetch_onoff.year r = year_.

(** What [tag_frame] makes of one row of a table: the four identity cells
    set, "Corner3FGM" set to 0 when the table has no such column, every
    other cell kept. *)
Definition tagged_row (year_ : Z) (season : string) (team_id : Z) (opp : bool)
    (had_corner3 : bool) (row row' : gmap string fetch_onoff.Cell) : Prop :=
  row' !! "team_id" = Some (fetch_onoff.CInt team_id)
  ∧ row' !! "year" = Some (fetch_onoff.CInt year_)
  ∧ row' !! "season" = Some (fetch_onoff.CStr season)
  ∧ row' !! "team_vs" = Some (fetch_onoff.CBool opp)
  ∧ row' !! "Corner3FGM"
    = (if had_corner3 then row !! "Corner3FGM" else Some (fetch_onoff.CInt 0))
  ∧ ∀ c, c ∉ ["team_id"; "year"; "season"; "team_vs"; "Corner3FGM"] →
         row' !! c = row !! c.

(** The units of a block in the order [pull_block] takes them: every team
    as "Team", then every team as "Opponent". *)
Definition unit_order (team_ids : list Z) : list (Z * string) :=
  ((λ t, (t, "Team")) <$> team_ids) ++ ((λ t, (t, "Opponent")) <$> team_ids).

(** The files of the units of a block, in that order. *)
Definition block_paths (year_ : Z) (leverage : bool) (team_ids : list Z) : list string :=
  ((λ t, fetch_onoff.filepath year_ t false leverage) <$> team_ids)
  ++ ((λ t, fetch_onoff.filepath year_ t true leverage) <$> team_ids).

(** No file of [w] is missing in [w']. *)
Definition keeps_files {F} (w w' : World F) : Prop :=
  ∀ p, is_Some (files w !! p) → is_Some (files w' !! p).

(** The two decimal digits of a number below 100. *)
Definition two_digits (n : Z) : string := str (n / 10) +:+ str (n mod 10).

(** The season label [season_label] should give: the year before, a dash,
    and the two last digits of the year. *)
Definition season_label_ok (year : Z) : bool :=
  String.eqb (season_label year)
    (str (year - 1) +:+ "-" +:+ two_digits (year mod 100)).

(** The table at [path] in [w'] has, apart from [year_], the years the
    table at [path] had in [w]. *)
Definition keeps_other_years (year_ : Z) (path : string)
    (w w' : World (list fetch_season_totals.Row)) : Prop :=
  ∀ existing, files w !! path = Some existing →
    ∃ t, files w' !! path = Some t
         ∧ ∀ y, y ≠ year_ →
                (y ∈ fetch_season_totals.year <$> t
                 ↔ y ∈ fetch_season_totals.year <$> existing).

Module ExtraSamples.

(** The season file of [Samples], next to a script in the directory ".". *)
Definition disk : World (list fetch_season_totals.Row) :=
  mkWorld 0 {["./data/season_totals.csv" := Samples.season_totals_csv]} [].

(** Two requests get no answer, the following ones get the row. *)
Definition third_time : nat → Request → Reply fetch_season_totals.Payload :=
  λ n _, if (n <? 2)%nat then Unreachable
         else Response 200 (Some (fetch_season_totals.mkPayload (Some Samples.fresh))).

Definition three_combos : list (gmap string fetch_onoff.Cell) :=
  [OnOffSamples.combo 10; OnOffSamples.combo 12; OnOffSamples.combo 14].

(** The first request gets a 503, the following ones a table of three
    rows. *)
Definition second_time : nat → Request → Reply fetch_onoff.Payload :=
  λ n _, if (n <? 1)%nat then Response 503 None
         else Response 200 (Some (fetch_onoff.mkPayload (Some three_combos))).

End ExtraSamples.

(* ------------------------------------------------------------------ *)
(** ** The merge: [drop_duplicates], [sort_values], [update_csv]       *)
(* ------------------------------------------------------------------ *)

Section MergeFacts.
Import fetch_season_totals.
Implicit Types (df ex new : DataFrame) (r : Row) (k : Z).

Lemma filter_all {A} (P : A → Prop) `{∀ x, Decision (P x)} (l : list A) :
  Forall P l → filter P l = l.
Proof.
  induction 1 as [|x l HP _ IH]; [done|].
  by rewrite filter_cons_True, IH.
Qed.

Lemma filter_none {A} (P : A → Prop) `{∀ x, Decision (P x)} (l : list A) :
  Forall (λ x, ¬ P x) l → filter P l = [].
Proof.
  induction 1 as [|x l HP _ IH]; [done|].
  by rewrite filter_cons_False.
Qed.

Lemma year_derive_row r : year (derive_row r) = year r.
Proof. reflexivity. Qed.

Lemma derive_row_idemp r : derive_row (derive_row r) = derive_row r.
Proof. reflexivity. Qed.

Lemma year_add_derived_cols df : year <$> add_derived_cols df = year <$> df.
Proof.
  unfold add_derived_cols. rewrite <- list_fmap_compose.
  apply list_fmap_ext. intros ? r _. apply year_derive_row.
Qed.

Lemma add_derived_cols_idemp df :
  add_derived_cols (add_derived_cols df) = add_derived_cols df.
Proof.
  unfold add_derived_cols. rewrite <- list_fmap_compose.
  apply list_fmap_ext. intros ? r _. apply derive_row_idemp.
Qed.

Lemma add_derived_cols_filter (P : Z → Prop) `{∀ y, Decision (P y)} df :
  filter (λ r, P (year r)) (add_derived_cols df)
  = add_derived_cols (filter (λ r, P (year r)) df).
Proof.
  induction df as [|r df IH]; [done|].
  unfold add_derived_cols in *. rewrite fmap_cons. rewrite !filter_cons, year_derive_row.
  destruct (decide (P (year r))); rewrite ?fmap_cons; by rewrite IH.
Qed.

Lemma strictly_ascending_add_derived_cols df :
  strictly_ascending df → strictly_ascending (add_derived_cols df).
Proof. apply StronglySorted_fmap. by intros x y. Qed.

Lemma strictly_ascending_filter (P : Row → Prop) `{∀ r, Decision (P r)} df :
  strictly_ascending df → strictly_ascending (filter P df).
Proof.
  induction 1 as [|r df Hs IH Hall]; [constructor|].
  rewrite filter_cons. destruct (decide (P r)); [|done].
  constructor; [done|].
  apply Forall_forall. intros r' [_ Hin]%list_elem_of_filter.
  rewrite Forall_forall in Hall. auto.
Qed.

Lemma strictly_ascending_NoDup df :
  strictly_ascending df → NoDup (year <$> df).
Proof.
  induction 1 as [|r df Hs IH Hall]; cbn; constructor; [|done].
  intros (r' & Heq & Hin)%list_elem_of_fmap.
  rewrite Forall_forall in Hall. specialize (Hall _ Hin). lia.
Qed.

(** Two tables in strictly ascending key order with the same rows are the
    same table. *)
Lemma strictly_ascending_unique df1 df2 :
  strictly_ascending df1 → strictly_ascending df2 → df1 ≡ₚ df2 → df1 = df2.
Proof.
  apply StronglySorted_unique_strong. intros; lia.
Qed.

(** *** drop_duplicates *)

Lemma drop_duplicates_subset df r : r ∈ drop_duplicates df → r ∈ df.
Proof.
  induction df as [|r' df IH]; cbn; [done|].
  case_bool_decide; [right; auto|].
  intros [->|?]%elem_of_cons; [left|right; auto].
Qed.

Lemma drop_duplicates_keys df k :
  k ∈ year <$> drop_duplicates df ↔ k ∈ year <$> df.
Proof.
  induction df as [|r df IH]; cbn; [done|].
  case_bool_decide as Hin; cbn; rewrite ?elem_of_cons, IH; [|done].
  split; [auto|]. intros [->|?]; auto.
Qed.

Lemma drop_duplicates_NoDup df : NoDup (year <$> drop_duplicates df).
Proof.
  induction df as [|r df IH]; cbn; [constructor|].
  case_bool_decide as Hin; [done|]. cbn. constructor; [|done].
  by rewrite drop_duplicates_keys.
Qed.

Lemma drop_duplicates_id df : NoDup (year <$> df) → drop_duplicates df = df.
Proof.
  induction df as [|r df IH]; cbn; [done|].
  intros [Hnin Hnd]%NoDup_cons. rewrite bool_decide_eq_false_2 by done.
  by rewrite IH.
Qed.

(** The rows up to the new ones lose those whose key comes again. *)
Lemma drop_duplicates_app ex new :
  drop_duplicates (ex ++ new)
  = filter (λ r, year r ∉ year <$> new) (drop_duplicates ex) ++ drop_duplicates new.
Proof.
  induction ex as [|r ex IH]; cbn; [done|].
  assert (Hiff : year r ∈ year <$> ex ++ new
                 ↔ year r ∈ year <$> ex ∨ year r ∈ year <$> new)
    by (by rewrite fmap_app, elem_of_app).
  destruct (decide (year r ∈ year <$> ex)) as [Hin|Hnin].
  - rewrite !bool_decide_eq_true_2 by tauto. done.
  - rewrite (bool_decide_eq_false_2 (year r ∈ year <$> ex)) by done.
    destruct (decide (year r ∈ year <$> new)) as [Hn|Hn].
    + rewrite bool_decide_eq_true_2 by tauto.
      rewrite filter_cons_False by tauto. done.
    + rewrite bool_decide_eq_false_2 by tauto.
      rewrite filter_cons_True by done. cbn. by rewrite IH.
Qed.

(** Rows that all carry one key: the last one stays. *)
Lemma drop_duplicates_same_key new r k :
  Forall (λ r', year r' = k) (new ++ [r]) → drop_duplicates (new ++ [r]) = [r].
Proof.
  induction new as [|r' new IH]; cbn; [done|].
  intros [Hk Hall]%Forall_cons.
  rewrite bool_decide_eq_true_2; [by apply IH|].
  rewrite fmap_app, elem_of_app. right. cbn.
  apply Forall_app in Hall as [_ [Hr _]%Forall_cons]. rewrite Hk, Hr. left.
Qed.

(** *** sort_values *)

Lemma sort_insert_Permutation r df : sort_insert r df ≡ₚ r :: df.
Proof.
  induction df as [|r' df IH]; cbn; [done|].
  destruct (year r <=? year r')%Z; [done|].
  rewrite IH. apply Permutation_swap.
Qed.

Lemma sort_values_Permutation df : sort_values df ≡ₚ df.
Proof.
  induction df as [|r df IH]; cbn; [done|].
  by rewrite sort_insert_Permutation, IH.
Qed.

Lemma sort_insert_strictly_ascending r df :
  year r ∉ year <$> df →
  strictly_ascending df → strictly_ascending (sort_insert r df).
Proof.
  intros Hnin Hs. induction Hs as [|r' df Hs IH Hall]; cbn.
  - repeat constructor.
  - cbn in Hnin. apply not_elem_of_cons in Hnin as [Hne Hnin].
    destruct (Z.leb_spec (year r) (year r')).
    + constructor; [by constructor|].
      constructor; [lia|]. eapply Forall_impl; [done|]. cbn. intros; lia.
    + constructor; [by apply IH|].
      rewrite sort_insert_Permutation. constructor; [lia|done].
Qed.

Lemma sort_values_strictly_ascending df :
  NoDup (year <$> df) → strictly_ascending (sort_values df).
Proof.
  induction df as [|r df IH]; cbn; [constructor|].
  intros [Hnin Hnd]%NoDup_cons.
  apply sort_insert_strictly_ascending; [|by apply IH].
  by rewrite sort_values_Permutation.
Qed.

(** pandas sorts with quicksort where the model inserts: on distinct keys
    the result of any sort is the one table in ascending key order. *)
Lemma sort_values_unique df df' :
  NoDup (year <$> df) → df' ≡ₚ df → Sorted (λ a b, (year a <= year b)%Z) df' →
  df' = sort_values df.
Proof.
  intros Hnd Hp Hs.
  apply strictly_ascending_unique;
    [|by apply sort_values_strictly_ascending|by rewrite sort_values_Permutation].
  assert (Hnd' : NoDup (year <$> df')) by by rewrite Hp.
  clear Hp Hnd. induction df' as [|r df' IH]; [constructor|].
  apply Sorted_inv in Hs as [Hs Hhd]. cbn in Hnd'.
  apply NoDup_cons in Hnd' as [Hnin Hnd'].
  specialize (IH Hs Hnd'). constructor; [done|].
  destruct df' as [|r' df'']; [constructor|].
  apply HdRel_inv in Hhd. apply StronglySorted_inv in IH as [_ Hall].
  assert (year r < year r')%Z.
  { cbn in Hnin. apply not_elem_of_cons in Hnin as [? _]. lia. }
  constructor; [done|]. eapply Forall_impl; [done|]. cbn. intros; lia.
Qed.

(** *** merged *)

Lemma merged_strictly_ascending ex new : strictly_ascending (merged ex new).
Proof.
  apply strictly_ascending_add_derived_cols, sort_values_strictly_ascending,
    drop_duplicates_NoDup.
Qed.

Lemma merged_derived ex new : add_derived_cols (merged ex new) = merged ex new.
Proof. apply add_derived_cols_idemp. Qed.

Lemma merged_Permutation ex new :
  merged ex new ≡ₚ add_derived_cols (drop_duplicates (ex ++ new)).
Proof. unfold merged, add_derived_cols. by rewrite sort_values_Permutation. Qed.

(** Merging rows that all carry the key [k] into rows of other keys: the
    old rows, without their duplicates and derived again, and the last new
    row. *)
Lemma merged_replace ex new r k :
  Forall (λ r', year r' ≠ k) ex →
  Forall (λ r', year r' = k) (new ++ [r]) →
  merged ex (new ++ [r])
  ≡ₚ add_derived_cols (drop_duplicates ex) ++ [derive_row r].
Proof.
  intros Hex Hnew. rewrite merged_Permutation, drop_duplicates_app.
  rewrite (drop_duplicates_same_key _ _ k) by done.
  rewrite filter_all.
  - unfold add_derived_cols. by rewrite fmap_app.
  - rewrite Forall_forall in Hex, Hnew |- *.
    intros r' Hin%drop_duplicates_subset (r'' & Heq & Hin')%list_elem_of_fmap.
    specialize (Hex _ Hin). specialize (Hnew _ Hin'). congruence.
Qed.

(** The rows of key [k] after such a merge: the last new row alone. *)
Lemma merged_replace_key ex new r k :
  Forall (λ r', year r' ≠ k) ex →
  Forall (λ r', year r' = k) (new ++ [r]) →
  filter (λ r', year r' = k) (merged ex (new ++ [r])) = [derive_row r].
Proof.
  intros Hex Hnew. apply Permutation_singleton_r.
  rewrite (merged_replace _ _ _ k), filter_app by done.
  rewrite filter_none, filter_cons_True; [done| |].
  - apply Forall_app in Hnew as [_ [? _]%Forall_cons]. done.
  - rewrite Forall_forall in Hex |- *.
    intros r' (r'' & -> & Hin%drop_duplicates_subset)%list_elem_of_fmap.
    rewrite year_derive_row. auto.
Qed.
End MergeFacts.

Section UpdateCsv.
Import fetch_season_totals.
Implicit Types (df ex new : DataFrame) (r : Row) (k : Z) (w : World DataFrame).

Lemma update_csv_run path new k w :
  files w !! path ≠ None ∨ new ≠ [] →
  update_csv path new k w
  = (inr (merged (fetch_season_totals.kept (files w !! path) k) new),
     mkWorld (sent w)
             (<[path := merged (fetch_season_totals.kept (files w !! path) k) new]> (files w))
             (trace w ++ [EWrite path])).
Proof.
  intros Hok. unfold update_csv, mbind, M_bind, read_csv, to_csv, mret, M_ret.
  destruct (files w !! path) as [ex|], new as [|r new]; cbn; try done.
  by destruct Hok.
Qed.

Lemma update_csv_inr path new k w t w' :
  update_csv path new k w = (inr t, w') →
  t = merged (fetch_season_totals.kept (files w !! path) k) new ∧ files w' !! path = Some t.
Proof.
  intros Hrun.
  destruct (decide (files w !! path ≠ None ∨ new ≠ [])) as [Hok|Hno].
  - rewrite update_csv_run in Hrun by done. injection Hrun as <- <-.
    split; [done|]. cbn. apply lookup_insert_eq.
  - unfold update_csv, mbind, M_bind, read_csv, mret, M_ret in Hrun.
    destruct (files w !! path), new; try discriminate; destruct Hno; auto.
Qed.

Lemma kept_not_key on_disk k : Forall (λ r, year r ≠ k) (kept on_disk k).
Proof.
  destruct on_disk as [ex|]; cbn; [|constructor].
  apply Forall_forall. by intros r [? _]%list_elem_of_filter.
Qed.

(** Merging rows of key [k] into a table in strictly ascending order whose
    derived columns are up to date. *)
Lemma merged_into_merged prior new r k :
  strictly_ascending prior → add_derived_cols prior = prior →
  Forall (λ r', year r' = k) (new ++ [r]) →
  let t := merged (filter (λ r', year r' ≠ k) prior) (new ++ [r]) in
  filter (λ r', year r' = k) t = [derive_row r]
  ∧ filter (λ r', year r' ≠ k) t = filter (λ r', year r' ≠ k) prior.
Proof.
  intros Hs Hd Hnew t.
  assert (Hex : strictly_ascending (filter (λ r', year r' ≠ k) prior))
    by by apply strictly_ascending_filter.
  assert (Hexk : Forall (λ r', year r' ≠ k) (filter (λ r', year r' ≠ k) prior)).
  { apply Forall_forall. by intros r' [? _]%list_elem_of_filter. }
  split; [by apply merged_replace_key|].
  apply strictly_ascending_unique;
    [apply strictly_ascending_filter, merged_strictly_ascending|done|].
  unfold t. rewrite (merged_replace _ _ _ k) by done.
  rewrite drop_duplicates_id by by apply strictly_ascending_NoDup.
  pose proof (add_derived_cols_filter (λ y, y ≠ k) prior) as E.
  rewrite Hd in E. rewrite <- E.
  rewrite filter_app, filter_cons_False, app_nil_r.
  - by rewrite filter_all.
  - cbn. apply Forall_app in Hnew as [_ [? _]%Forall_cons]. auto.
Qed.

(** A table in strictly ascending key order is its rows of key [k] and
    its other rows. *)
Lemma strictly_ascending_split t1 t2 k :
  strictly_ascending t1 → strictly_ascending t2 →
  filter (λ r, year r = k) t1 = filter (λ r, year r = k) t2 →
  filter (λ r, year r ≠ k) t1 = filter (λ r, year r ≠ k) t2 →
  t1 = t2.
Proof.
  intros H1 H2 Hk Hn. apply strictly_ascending_unique; [done..|].
  rewrite <- (filter_app_complement (λ r, year r = k) t1).
  rewrite <- (filter_app_complement (λ r, year r = k) t2).
  by rewrite Hk, Hn.
Qed.

Lemma update_csv_invariant path new k w t w' :
  update_csv path new k w = (inr t, w') →
  strictly_ascending t ∧ add_derived_cols t = t.
Proof.
  intros [-> _]%update_csv_inr.
  split; [apply merged_strictly_ascending|apply merged_derived].
Qed.

(** The rows of the other keys after rows of key [k] were merged in: the
    old rows, merged with nothing. *)
Lemma merged_others ex new r k :
  Forall (λ r', year r' ≠ k) ex →
  Forall (λ r', year r' = k) (new ++ [r]) →
  filter (λ r', year r' ≠ k) (merged ex (new ++ [r])) = merged ex [].
Proof.
  intros Hex Hnew. apply strictly_ascending_unique;
    [apply strictly_ascending_filter, merged_strictly_ascending
    |apply merged_strictly_ascending|].
  rewrite (merged_replace _ _ _ k) by done.
  rewrite merged_Permutation, app_nil_r.
  rewrite filter_app, filter_cons_False, app_nil_r.
  - rewrite filter_all; [done|].
    rewrite Forall_forall in Hex |- *.
    intros r' (r'' & -> & Hin%drop_duplicates_subset)%list_elem_of_fmap.
    rewrite year_derive_row. auto.
  - cbn. apply Forall_app in Hnew as [_ [? _]%Forall_cons]. auto.
Qed.

(** The tables that a merge with nothing leaves as they are: those in
    strictly ascending key order whose derived columns are up to date. *)
Lemma merged_nothing ex :
  merged ex [] = ex ↔ strictly_ascending ex ∧ add_derived_cols ex = ex.
Proof.
  split.
  - intros <-. split; [apply merged_strictly_ascending|apply merged_derived].
  - intros [Hs Hd]. apply strictly_ascending_unique;
      [apply merged_strictly_ascending|done|].
    rewrite merged_Permutation, app_nil_r.
    rewrite drop_duplicates_id by by apply strictly_ascending_NoDup.
    by rewrite Hd.
Qed.

(** Merging rows of key [k] into a file that exists. *)
Lemma update_csv_others path new r k w prior :
  files w !! path = Some prior →
  Forall (λ r', year r' = k) (new ++ [r]) →
  ∃ t w',
    update_csv path (new ++ [r]) k w = (inr t, w')
    ∧ files w' !! path = Some t
    ∧ filter (λ r', year r' = k) t = [derive_row r]
    ∧ filter (λ r', year r' ≠ k) t = merged (filter (λ r', year r' ≠ k) prior) [].
Proof.
  intros Hfile Hnew.
  eexists _, _. split; [apply update_csv_run; by left; rewrite Hfile|].
  split; [apply lookup_insert_eq|].
  rewrite Hfile. cbn [fetch_season_totals.kept].
  assert (Hexk : Forall (λ r', year r' ≠ k) (filter (λ r', year r' ≠ k) prior)).
  { apply Forall_forall. by intros r' [? _]%list_elem_of_filter. }
  split; [by apply merged_replace_key|by apply merged_others].
Qed.

(** What a merge wrote is in key order with its derived columns up to
    date, and so are its rows of the keys other than [k]. *)
Lemma update_csv_invariant_others path new k0 k w t w' :
  update_csv path new k0 w = (inr t, w') →
  strictly_ascending (filter (λ r', year r' ≠ k) t)
  ∧ add_derived_cols (filter (λ r', year r' ≠ k) t) = filter (λ r', year r' ≠ k) t.
Proof.
  intros [Hs Hd]%update_csv_invariant.
  split; [by apply strictly_ascending_filter|].
  pose proof (add_derived_cols_filter (λ y, y ≠ k) t) as E.
  by rewrite Hd in E.
Qed.
End UpdateCsv.

(** C2.  Whatever the file holds and whatever rows come in, the table
    [update_csv] writes and returns has its rows in strictly ascending order
    of "year": it is sorted by the key and no key occurs twice. *)
Theorem update_csv_sorted_unique_keys
    (path : string) (new_data : list fetch_season_totals.Row) (k : Z)
    (w : World (list fetch_season_totals.Row)) :
  files w !! path ≠ None ∨ new_data ≠ [] →
  ∃ t w',
    fetch_season_totals.update_csv path new_data k w = (inr t, w')
    ∧ files w' !! path = Some t
    ∧ StronglySorted (λ a b, (fetch_season_totals.year a < fetch_season_totals.year b)%Z) t
    ∧ NoDup (fetch_season_totals.year <$> t).
Proof.
  intros Hok. eexists _, _. split; [by apply update_csv_run|].
  split; [apply lookup_insert_eq|].
  pose proof (merged_strictly_ascending
                (fetch_season_totals.kept (files w !! path) k) new_data) as Hs.
  split; [exact Hs|by apply strictly_ascending_NoDup].
Qed.

(** C1.  Merging the same single row of key [k] twice in a row leaves the
    table of the first merge, and that table has exactly one row of key
    [k]. *)
Theorem update_csv_idempotent
    (path : string) (r : fetch_season_totals.Row) (k : Z)
    (w : World (list fetch_season_totals.Row)) :
  fetch_season_totals.year r = k →
  ∃ t w1 w2,
    fetch_season_totals.update_csv path [r] k w = (inr t, w1)
    ∧ fetch_season_totals.update_csv path [r] k w1 = (inr t, w2)
    ∧ files w1 !! path = Some t
    ∧ files w2 !! path = Some t
    ∧ length (filter (λ r', fetch_season_totals.year r' = k) t) = 1.
Proof.
  intros Hk.
  assert (Hnew : Forall (λ r', fetch_season_totals.year r' = k) ([] ++ [r]))
    by by repeat constructor.
  pose (t := fetch_season_totals.merged (fetch_season_totals.kept (files w !! path) k) [r]).
  assert (Hone : filter (λ r', fetch_season_totals.year r' = k) t
                 = [fetch_season_totals.derive_row r]).
  { apply (merged_replace_key _ [] r k); [apply kept_not_key|done]. }
  destruct (merged_into_merged t [] r k) as [Hk2 Hn2];
    [apply merged_strictly_ascending|apply merged_derived|done|].
  assert (Hagain : fetch_season_totals.merged
                     (filter (λ r', fetch_season_totals.year r' ≠ k) t) [r] = t).
  { apply (strictly_ascending_split _ _ k); try done;
      [apply merged_strictly_ascending..|by rewrite Hone]. }
  pose (w1 := mkWorld (sent w) (<[path := t]> (files w)) (trace w ++ [EWrite path])).
  pose (w2 := mkWorld (sent w1) (<[path := t]> (files w1)) (trace w1 ++ [EWrite path])).
  assert (Hf1 : files w1 !! path = Some t) by apply lookup_insert_eq.
  exists t, w1, w2. split; [apply update_csv_run; by right|].
  split; [|split; [done|split; [apply lookup_insert_eq|by rewrite Hone]]].
  rewrite update_csv_run by by right. rewrite Hf1. cbn [fetch_season_totals.kept].
  by rewrite Hagain.
Qed.

(* ------------------------------------------------------------------ *)
(** ** The season-totals fetch and run                                 *)
(* ------------------------------------------------------------------ *)

Lemma written_sleep tr z : written (tr ++ [ESleep z]) = written tr.
Proof. unfold written. rewrite omap_app. cbn. apply app_nil_r. Qed.

Lemma written_request tr r : written (tr ++ [ERequest r]) = written tr.
Proof. unfold written. rewrite omap_app. cbn. apply app_nil_r. Qed.

Lemma written_write tr p : written (tr ++ [EWrite p]) = written tr ++ [p].
Proof. unfold written. by rewrite omap_app. Qed.

Section FetchTotals.
Import fetch_season_totals.
Variable remote : nat → Request → Reply Payload.
Implicit Types (w : World (list Row)).

Lemma attempt_totals_run year st lev w :
  attempt_totals remote year st lev w
  = (read_totals year (remote (sent w) (totals_request year st lev)),
     mkWorld (S (sent w)) (files w)
       ((trace w ++ [ESleep 2]) ++ [ERequest (totals_request year st lev)])).
Proof. reflexivity. Qed.

Lemma read_totals_inr year resp df :
  read_totals year resp = inr df → ∃ row, df = [set_year year row].
Proof.
  destruct resp as [|st [[[row|]]|]]; cbn; intros; simplify_eq; eauto.
Qed.

Lemma fetch_totals_loop_cons year st lev attempt rest w :
  fetch_totals_loop remote (attempt :: rest) year st lev w
  = let w1 := mkWorld (S (sent w)) (files w)
                ((trace w ++ [ESleep 2]) ++ [ERequest (totals_request year st lev)]) in
    match read_totals year (remote (sent w) (totals_request year st lev)) with
    | inr df => (Some df, w1)
    | inl _ =>
        if (attempt <? max_retries)%Z
        then fetch_totals_loop remote rest year st lev
               (mkWorld (sent w1) (files w1) (trace w1 ++ [ESleep 2]))
        else (Some [], w1)
    end.
Proof.
  cbn [fetch_totals_loop]. unfold mbind at 1, M_bind at 1.
  rewrite attempt_totals_run.
  destruct (read_totals year _); [|done].
  by destruct (attempt <? max_retries)%Z.
Qed.

Lemma fetch_totals_loop_run year st lev n : ∀ s w,
  (s + S n)%nat = Z.to_nat max_retries →
  ∃ data w',
    fetch_totals_loop remote ((λ i : nat, (1 + Z.of_nat i)%Z) <$> seq s (S n))
      year st lev w = (Some data, w')
    ∧ files w' = files w
    ∧ written (trace w') = written (trace w)
    ∧ (sent w < sent w' ≤ sent w + S n)%nat
    ∧ (data = [] ↔ ∀ i, (i < S n)%nat → attempt_fails remote year st lev (sent w + i))
    ∧ (data = [] → sent w' = (sent w + S n)%nat)
    ∧ (data ≠ [] → ∃ row, data = [set_year year row]).
Proof.
  induction n as [|n IH]; intros s w Hs;
    change (seq s (S ?k)) with (s :: seq (S s) k);
    rewrite fmap_cons, fetch_totals_loop_cons; cbn zeta;
    destruct (read_totals year _) as [e|df] eqn:Hread.
  - replace (1 + Z.of_nat s <? max_retries)%Z with false
      by (symmetry; apply Z.ltb_ge; unfold max_retries in *; lia).
    eexists [], _. split; [reflexivity|]. cbn.
    split; [done|]. split; [by rewrite written_request, written_sleep|].
    split; [lia|]. split; [|split; [intros; lia|done]].
    split; [|done]. intros _ i Hi. replace i with 0%nat by lia.
    rewrite Nat.add_0_r. by exists e.
  - eexists df, _. split; [reflexivity|]. cbn.
    apply read_totals_inr in Hread as Hrow. destruct Hrow as [row ->].
    split; [done|]. split; [by rewrite written_request, written_sleep|].
    split; [lia|]. split; [|split; [done|eauto]].
    split; [done|]. intros Hall. destruct (Hall 0%nat) as [e He]; [lia|].
    rewrite Nat.add_0_r in He. congruence.
  - replace (1 + Z.of_nat s <? max_retries)%Z with true
      by (symmetry; apply Z.ltb_lt; unfold max_retries in *; lia).
    cbn [sent files trace].
    match goal with |- context [fetch_totals_loop _ _ _ _ _ ?w1] =>
      destruct (IH (S s) w1) as (data & w' & Hrun & Hf & Hwr & Hsent & Hiff & Hex & Hrow)
    end; [lia|].
    cbn [sent files trace] in *.
    rewrite written_sleep, written_request, written_sleep in Hwr.
    exists data, w'. split; [exact Hrun|]. split; [done|]. split; [done|].
    split; [lia|].
    split; [|split; [intros; rewrite Hex by done; lia|done]].
    rewrite Hiff. split.
    + intros Hall [|i] Hi; [rewrite Nat.add_0_r; by exists e|].
      replace (sent w + S i)%nat with (S (sent w) + i)%nat by lia.
      apply Hall. lia.
    + intros Hall i Hi.
      replace (S (sent w) + i)%nat with (sent w + S i)%nat by lia.
      apply Hall. lia.
  - eexists df, _. split; [reflexivity|]. cbn.
    apply read_totals_inr in Hread as Hrow. destruct Hrow as [row ->].
    split; [done|]. split; [by rewrite written_request, written_sleep|].
    split; [lia|]. split; [|split; [done|eauto]].
    split; [done|]. intros Hall. destruct (Hall 0%nat) as [e He]; [lia|].
    rewrite Nat.add_0_r in He. congruence.
Qed.

Lemma fetch_totals_run year st lev w :
  ∃ data w',
    fetch_totals remote year st lev w = (Some data, w')
    ∧ files w' = files w
    ∧ written (trace w') = written (trace w)
    ∧ (sent w < sent w' ≤ sent w + Z.to_nat max_retries)%nat
    ∧ (data = [] ↔ ∀ i, (i < Z.to_nat max_retries)%nat →
                        attempt_fails remote year st lev (sent w + i))
    ∧ (data = [] → sent w' = (sent w + Z.to_nat max_retries)%nat)
    ∧ (data ≠ [] → ∃ row, data = [set_year year row]).
Proof.
  unfold fetch_totals, range.
  replace (Z.to_nat (max_retries + 1 - 1)) with 15%nat by reflexivity.
  apply (fetch_totals_loop_run year st lev 14 0 w). reflexivity.
Qed.

Variable script_dir : string.

Lemma sync_run file st lev year w :
  ∃ data w1,
    fetch_totals remote year st lev w = (Some data, w1)
    ∧ files w1 = files w
    ∧ written (trace w1) = written (trace w)
    ∧ (data = [] → sync remote script_dir file st lev year w = (None, w1))
    ∧ (data ≠ [] →
       ∃ t, sync remote script_dir file st lev year w
            = (None, mkWorld (sent w1)
                       (<[DATA_DIR script_dir +:+ "/" +:+ file := t]> (files w1))
                       (trace w1 ++ [EWrite (DATA_DIR script_dir +:+ "/" +:+ file)]))).
Proof.
  destruct (fetch_totals_run year st lev w)
    as (data & w1 & Hrun & Hf & Hwr & _ & _ & _ & Hrow).
  exists data, w1. split; [done|]. split; [done|]. split; [done|].
  unfold sync, mbind at 1 3, M_bind at 1 3. rewrite Hrun. split.
  - by intros ->.
  - intros Hne. destruct (Hrow Hne) as [row ->].
    unfold mbind, M_bind. rewrite update_csv_run by (right; done).
    eauto.
Qed.

(** A step leaves every file but its own as it was. *)
Lemma sync_frame file st lev year w e w' :
  sync remote script_dir file st lev year w = (e, w') →
  e = None
  ∧ (∀ p, p ≠ DATA_DIR script_dir +:+ "/" +:+ file → files w' !! p = files w !! p)
  ∧ ∃ ps, written (trace w') = written (trace w) ++ ps
          ∧ ∀ p, p ∈ ps → p = DATA_DIR script_dir +:+ "/" +:+ file.
Proof.
  destruct (sync_run file st lev year w)
    as (data & w1 & _ & Hf & Hwr & Hempty & Hrows).
  destruct (decide (data = [])) as [Hd|Hd].
  - rewrite (Hempty Hd). intros [= <- <-]. split; [done|].
    split; [by rewrite Hf|]. exists []. rewrite app_nil_r. split; [done|].
    by intros p ?%elem_of_nil.
  - destruct (Hrows Hd) as [t ->]. intros [= <- <-]. split; [done|].
    cbn. split.
    + intros p Hp. by rewrite lookup_insert_ne, Hf.
    + eexists [_]. rewrite written_write, Hwr. split; [done|].
      by intros p ->%list_elem_of_singleton.
Qed.
End FetchTotals.

Lemma untouched_refl {F} p (w : World F) : untouched p w w.
Proof. split; [done|]. exists []. rewrite app_nil_r. split; [done|apply not_elem_of_nil]. Qed.

Lemma untouched_trans {F} p (w1 w2 w3 : World F) :
  untouched p w1 w2 → untouched p w2 w3 → untouched p w1 w3.
Proof.
  intros [Hf1 (ps1 & Hw1 & Hn1)] [Hf2 (ps2 & Hw2 & Hn2)].
  split; [congruence|]. exists (ps1 ++ ps2).
  rewrite Hw2, Hw1, app_assoc. split; [done|].
  rewrite elem_of_app. tauto.
Qed.

Section SeasonTotalsMain.
Import fetch_season_totals.
Variable remote : nat → Request → Reply Payload.
Variable script_dir : string.
Implicit Types (w : World (list Row)).

Abbreviation csv_path file := (DATA_DIR script_dir +:+ "/" +:+ file).

Lemma csv_path_inj file file' : csv_path file = csv_path file' → file = file'.
Proof.
  intros H. apply String.app_inj in H. by apply String.app_inj in H.
Qed.

Lemma sync_untouched_other file st lev year w p :
  p ≠ csv_path file →
  untouched p w (sync remote script_dir file st lev year w).2.
Proof.
  intros Hp. destruct (sync _ _ _ _ _ _ w) as [e w'] eqn:Hrun.
  apply sync_frame in Hrun as (_ & Hf & ps & Hwr & Hps). cbn.
  split; [by apply Hf|]. exists ps. split; [done|].
  intros Hin. by apply Hps in Hin.
Qed.

Lemma sync_untouched_empty file st lev year w w1 p :
  fetch_totals remote year st lev w = (Some [], w1) →
  untouched p w (sync remote script_dir file st lev year w).2.
Proof.
  intros Hrun.
  destruct (sync_run remote script_dir file st lev year w)
    as (data & w1' & Hrun' & Hf & Hwr & Hempty & _).
  rewrite Hrun in Hrun'. injection Hrun' as <- <-.
  rewrite Hempty by done. cbn. split; [by rewrite Hf|].
  exists []. rewrite app_nil_r. split; [done|apply not_elem_of_nil].
Qed.

Lemma sync_result file st lev year w :
  (sync remote script_dir file st lev year w).1 = None.
Proof.
  destruct (sync _ _ _ _ _ _ w) as [e w'] eqn:Hrun.
  by apply sync_frame in Hrun as (-> & _).
Qed.

Lemma season_main_run arg_year now_year now_month w :
  let year := target_year arg_year now_year now_month in
  let w1 := (sync remote script_dir "season_totals.csv" "Regular Season" false year w).2 in
  let w2 := (sync remote script_dir "season_totals_playoffs.csv" "Playoffs" false year w1).2 in
  let w3 := (sync remote script_dir "season_totals_leverage.csv" "Regular Season" true year w2).2 in
  let w4 := (sync remote script_dir "season_totals_playoffs_leverage.csv" "Playoffs" true year w3).2 in
  main remote script_dir arg_year now_year now_month w = (0%Z, w4).
Proof.
  intros year. cbv zeta. unfold main. fold year. unfold mbind, M_bind.
  pose proof (sync_result "season_totals.csv" "Regular Season" false year w) as H1.
  destruct (sync _ _ "season_totals.csv" _ _ _ w) as [e1 w1] eqn:E1.
  cbn in H1. subst e1. cbn [snd].
  pose proof (sync_result "season_totals_playoffs.csv" "Playoffs" false year w1) as H2.
  destruct (sync _ _ "season_totals_playoffs.csv" _ _ _ w1) as [e2 w2] eqn:E2.
  cbn in H2. subst e2. cbn [snd].
  pose proof (sync_result "season_totals_leverage.csv" "Regular Season" true year w2) as H3.
  destruct (sync _ _ "season_totals_leverage.csv" _ _ _ w2) as [e3 w3] eqn:E3.
  cbn in H3. subst e3. cbn [snd].
  pose proof (sync_result "season_totals_playoffs_leverage.csv" "Playoffs" true year w3) as H4.
  destruct (sync _ _ "season_totals_playoffs_leverage.csv" _ _ _ w3) as [e4 w4] eqn:E4.
  cbn in H4. subst e4. done.
Qed.

(** A step whose fetch brought a row leaves it, derived, as the one row of
    its year in the step's file. *)
Lemma sync_saved file st lev year w data w1 :
  fetch_totals remote year st lev w = (Some data, w1) → data ≠ [] →
  ∃ t, files (sync remote script_dir file st lev year w).2 !! csv_path file = Some t
       ∧ filter (λ r, fetch_season_totals.year r = year) t = derive_row <$> data.
Proof.
  intros Hrun Hne.
  destruct (fetch_totals_run remote year st lev w)
    as (data' & w1' & Hrun' & _ & _ & _ & _ & _ & Hrow).
  rewrite Hrun in Hrun'. injection Hrun' as <- <-.
  destruct (Hrow Hne) as [row ->].
  unfold sync, mbind at 1, M_bind at 1. rewrite Hrun.
  unfold mbind, M_bind. rewrite update_csv_run by (right; done). cbn.
  eexists. split; [apply lookup_insert_eq|].
  apply (merged_replace_key _ [] _ year); [apply kept_not_key|by repeat constructor].
Qed.

Lemma fetch_totals_empty year st lev w :
  ∃ data w',
    fetch_totals remote year st lev w = (Some data, w')
    ∧ ((∀ i, (i < Z.to_nat max_retries)%nat →
             attempt_fails remote year st lev (sent w + i)) → data = []).
Proof.
  destruct (fetch_totals_run remote year st lev w)
    as (data & w' & Hrun & _ & _ & _ & Hiff & _).
  exists data, w'. split; [done|]. apply Hiff.
Qed.

(** The four steps of [main], one after the other: the run ends with
    status 0; a dataset whose fetch gave up keeps its file, and one whose
    fetch brought a row has it in its file when the run ends. *)
Lemma season_main_datasets arg_year now_year now_month w :
  let year := target_year arg_year now_year now_month in
  let w1 := (sync remote script_dir "season_totals.csv" "Regular Season" false year w).2 in
  let w2 := (sync remote script_dir "season_totals_playoffs.csv" "Playoffs" false year w1).2 in
  let w3 := (sync remote script_dir "season_totals_leverage.csv" "Regular Season" true year w2).2 in
  let w4 := (sync remote script_dir "season_totals_playoffs_leverage.csv" "Playoffs" true year w3).2 in
  Forall (λ '(file, season_type, leverage, wi),
    ∃ data wi',
      fetch_totals remote year season_type leverage wi = (Some data, wi')
      ∧ ((∀ i, (i < Z.to_nat max_retries)%nat →
            attempt_fails remote year season_type leverage (sent wi + i)) → data = [])
      ∧ (data = [] → untouched (csv_path file) w w4)
      ∧ (data ≠ [] →
         ∃ t, files w4 !! csv_path file = Some t
              ∧ filter (λ r, fetch_season_totals.year r = year) t = derive_row <$> data))
    [("season_totals.csv", "Regular Season", false, w);
     ("season_totals_playoffs.csv", "Playoffs", false, w1);
     ("season_totals_leverage.csv", "Regular Season", true, w2);
     ("season_totals_playoffs_leverage.csv", "Playoffs", true, w3)].
Proof.
  intros year w1 w2 w3 w4.
  assert (Hother : ∀ file file' st lev wi, file ≠ file' →
            untouched (csv_path file) wi (sync remote script_dir file' st lev year wi).2).
  { intros file file' st lev wi Hne. apply sync_untouched_other.
    intros Heq. by apply csv_path_inj in Heq. }
  assert (Hchain : ∀ p, untouched p w w1 → untouched p w1 w2 →
            untouched p w2 w3 → untouched p w3 w4 → untouched p w w4).
  { intros p H1 H2 H3 H4.
    exact (untouched_trans p _ _ _ H1
             (untouched_trans p _ _ _ H2 (untouched_trans p _ _ _ H3 H4))). }
  assert (Hlater : ∀ p (wa wb : World (list Row)) t,
            untouched p wa wb → files wa !! p = Some t → files wb !! p = Some t).
  { intros p wa wb t [Hf _] Ht. by rewrite Hf. }
  repeat apply Forall_cons_2; [..|apply Forall_nil_2].
  - destruct (fetch_totals_empty year "Regular Season" false w)
      as (data & wi' & Hrun & Hall).
    exists data, wi'. split; [done|]. split; [done|]. split.
    + intros ->.
      apply Hchain; [by eapply sync_untouched_empty|apply Hother; discriminate..].
    + intros Hne.
      destruct (sync_saved "season_totals.csv" _ _ _ _ _ _ Hrun Hne) as (t & Ht & Hrow).
      exists t. split; [|done].
      eapply Hlater; [|exact Ht].
      apply (untouched_trans _ w1 w2 w4); [apply Hother; discriminate|].
      apply (untouched_trans _ w2 w3 w4); apply Hother; discriminate.
  - destruct (fetch_totals_empty year "Playoffs" false w1)
      as (data & wi' & Hrun & Hall).
    exists data, wi'. split; [done|]. split; [done|]. split.
    + intros ->.
      apply Hchain;
        [apply Hother; discriminate|by eapply sync_untouched_empty
        |apply Hother; discriminate..].
    + intros Hne.
      destruct (sync_saved "season_totals_playoffs.csv" _ _ _ _ _ _ Hrun Hne)
        as (t & Ht & Hrow).
      exists t. split; [|done].
      eapply Hlater; [|exact Ht].
      apply (untouched_trans _ w2 w3 w4); apply Hother; discriminate.
  - destruct (fetch_totals_empty year "Regular Season" true w2)
      as (data & wi' & Hrun & Hall).
    exists data, wi'. split; [done|]. split; [done|]. split.
    + intros ->.
      apply Hchain;
        [apply Hother; discriminate..|by eapply sync_untouched_empty
        |apply Hother; discriminate].
    + intros Hne.
      destruct (sync_saved "season_totals_leverage.csv" _ _ _ _ _ _ Hrun Hne)
        as (t & Ht & Hrow).
      exists t. split; [|done].
      eapply Hlater; [|exact Ht]. apply Hother. discriminate.
  - destruct (fetch_totals_empty year "Playoffs" true w3)
      as (data & wi' & Hrun & Hall).
    exists data, wi'. split; [done|]. split; [done|]. split.
    + intros ->.
      apply Hchain; [apply Hother; discriminate..|by eapply sync_untouched_empty].
    + intros Hne.
      by apply (sync_saved "season_totals_playoffs_leverage.csv" _ _ _ _ _ _ Hrun Hne).
Qed.
End SeasonTotalsMain.

(** C10.  [fetch_totals] always returns a table, the empty one when all its
    attempts failed; and in a run of [main], a dataset whose fetch returned
    the empty table has its file as it was before the run, with no write to
    it. *)
Theorem fetch_totals_failure_keeps_csv
    (remote : nat → Request → Reply fetch_season_totals.Payload)
    (script_dir : string) (arg_year : option Z) (now_year now_month : Z)
    (w : World (list fetch_season_totals.Row)) :
  let year := fetch_season_totals.target_year arg_year now_year now_month in
  let sync := fetch_season_totals.sync remote script_dir in
  let w1 := (sync "season_totals.csv" "Regular Season" false year w).2 in
  let w2 := (sync "season_totals_playoffs.csv" "Playoffs" false year w1).2 in
  let w3 := (sync "season_totals_leverage.csv" "Regular Season" true year w2).2 in
  let w4 := (sync "season_totals_playoffs_leverage.csv" "Playoffs" true year w3).2 in
  fetch_season_totals.main remote script_dir arg_year now_year now_month w = (0%Z, w4)
  ∧ Forall (λ '(file, season_type, leverage, wi),
      ∃ data wi',
        fetch_season_totals.fetch_totals remote year season_type leverage wi
        = (Some data, wi')
        ∧ ((∀ i, (i < Z.to_nat fetch_season_totals.max_retries)%nat →
              fetch_season_totals.attempt_fails remote year season_type leverage
                (sent wi + i)) → data = [])
        ∧ (data = [] →
           untouched (fetch_season_totals.DATA_DIR script_dir +:+ "/" +:+ file) w w4))
      [("season_totals.csv", "Regular Season", false, w);
       ("season_totals_playoffs.csv", "Playoffs", false, w1);
       ("season_totals_leverage.csv", "Regular Season", true, w2);
       ("season_totals_playoffs_leverage.csv", "Playoffs", true, w3)].
Proof.
  intros year sync w1 w2 w3 w4. split; [apply season_main_run|].
  eapply Forall_impl;
    [apply (season_main_datasets remote script_dir arg_year now_year now_month w)|].
  intros [[[file st] lev] wi] (data & wi' & Hrun & Hall & Hempty & _).
  exists data, wi'. done.
Qed.

(* ------------------------------------------------------------------ *)
(** ** The on-off fetch: retry loop, file names, blocks and run        *)
(* ------------------------------------------------------------------ *)

Section RetryLoop.
Import fetch_onoff.
Variable remote : nat → Request → Reply Payload.
Implicit Types (w : World (list (gmap string Cell))).

Lemma lineuppull_run team_id season opp lev w :
  lineuppull remote team_id season opp lev w
  = (read_wowy (remote (sent w) (wowy_request team_id season opp lev)),
     mkWorld (S (sent w)) (files w)
       (trace w ++ [ERequest (wowy_request team_id season opp lev)])).
Proof. reflexivity. Qed.

Lemma retry_loop_done fuel team_id season opp lev attempts df w :
  retry_loop remote fuel team_id season opp lev attempts (Some df) w
  = (Some (attempts, Some df), w).
Proof.
  destruct fuel; cbn; by rewrite andb_false_r.
Qed.

Lemma retry_loop_exhausted fuel team_id season opp lev w :
  retry_loop remote fuel team_id season opp lev MAX_RETRIES None w
  = (Some (MAX_RETRIES, None), w).
Proof. by destruct fuel. Qed.

Lemma retry_loop_step fuel team_id season opp lev attempts w :
  (attempts < MAX_RETRIES)%Z →
  retry_loop remote (S fuel) team_id season opp lev attempts None w
  = let w1 := mkWorld (S (sent w)) (files w)
                (trace w ++ [ERequest (wowy_request team_id season opp lev)]) in
    match read_wowy (remote (sent w) (wowy_request team_id season opp lev)) with
    | inr df => (Some (attempts, Some df), w1)
    | inl _ =>
        retry_loop remote fuel team_id season opp lev (attempts + 1) None
          (if (attempts + 1 <? MAX_RETRIES)%Z
           then mkWorld (sent w1) (files w1) (trace w1 ++ [ESleep RETRY_DELAY])
           else w1)
    end.
Proof.
  intros Hlt. cbn [retry_loop].
  replace (attempts <? MAX_RETRIES)%Z with true by (symmetry; by apply Z.ltb_lt).
  cbn [andb negb bool_decide]. rewrite bool_decide_eq_false_2 by by intros [??].
  cbn [negb]. unfold mbind at 1, M_bind at 1. rewrite lineuppull_run.
  destruct (read_wowy _) as [e|df]; [|by rewrite retry_loop_done].
  unfold mbind, M_bind. by destruct (attempts + 1 <? MAX_RETRIES)%Z.
Qed.

(** The loop ends: on a success after [attempts' - attempts] failures, or
    with [attempts' = MAX_RETRIES] failures counted and nothing fetched. *)
Lemma retry_loop_run team_id season opp lev fuel : ∀ attempts w,
  (0 ≤ attempts ≤ MAX_RETRIES)%Z →
  (Z.to_nat (MAX_RETRIES - attempts) < fuel)%nat →
  ∃ attempts' success w',
    retry_loop remote fuel team_id season opp lev attempts None w
    = (Some (attempts', success), w')
    ∧ files w' = files w
    ∧ written (trace w') = written (trace w)
    ∧ (attempts ≤ attempts' ≤ MAX_RETRIES)%Z
    ∧ (∀ i, (i < Z.to_nat (attempts' - attempts))%nat →
            ∃ e, read_wowy (remote (sent w + i) (wowy_request team_id season opp lev))
                 = inl e)
    ∧ match success with
      | Some df =>
          (attempts' < MAX_RETRIES)%Z
          ∧ sent w' = (sent w + Z.to_nat (attempts' - attempts) + 1)%nat
          ∧ read_wowy (remote (sent w' - 1) (wowy_request team_id season opp lev))
            = inr df
          ∧ last (trace w') = Some (ERequest (wowy_request team_id season opp lev))
      | None =>
          attempts' = MAX_RETRIES
          ∧ sent w' = (sent w + Z.to_nat (MAX_RETRIES - attempts))%nat
          ∧ (attempts < MAX_RETRIES →
             last (trace w') = Some (ERequest (wowy_request team_id season opp lev)))%Z
      end.
Proof.
  induction fuel as [|fuel IH]; intros attempts w Ha Hfuel; [lia|].
  destruct (decide (attempts = MAX_RETRIES)) as [->|Hne].
  - rewrite retry_loop_exhausted. exists MAX_RETRIES, None, w.
    split; [done|]. split; [done|]. split; [done|]. split; [lia|].
    split; [intros i Hi; rewrite Z.sub_diag in Hi; cbn in Hi; lia|].
    split; [done|]. split; [rewrite Z.sub_diag; cbn; lia|lia].
  - rewrite retry_loop_step by lia. cbn zeta.
    destruct (read_wowy _) as [e|df] eqn:Hread.
    + match goal with |- context [retry_loop _ _ _ _ _ _ _ _ ?w1] =>
        destruct (IH (attempts + 1)%Z w1)
          as (a' & success & w' & Hrun & Hf & Hwr & Hle & Hfail & Hend);
        [lia|lia|]; assert (Hs1 : sent w1 = S (sent w)) by (by destruct (_ <? _)%Z);
        assert (Hf1 : files w1 = files w) by (by destruct (_ <? _)%Z);
        assert (Hw1 : written (trace w1) = written (trace w))
          by (destruct (_ <? _)%Z; cbn;
              rewrite ?written_sleep, ?written_request; done)
      end.
      exists a', success, w'. split; [exact Hrun|].
      split; [congruence|]. split; [congruence|]. split; [lia|].
      split.
      { intros [|i] Hi; [rewrite Nat.add_0_r; eauto|].
        replace (sent w + S i)%nat with (S (sent w) + i)%nat by lia.
        rewrite <- Hs1. apply Hfail. lia. }
      destruct success as [df|].
      * destruct Hend as (Hlt & Hsent & Hlast & Htr).
        split; [done|]. split; [lia|]. done.
      * destruct Hend as (-> & Hsent & Htr). split; [done|]. split; [lia|].
        intros _. destruct (decide (attempts + 1 = MAX_RETRIES)%Z) as [Heq|Hneq].
        -- rewrite Heq, retry_loop_exhausted in Hrun.
           injection Hrun as <-.
           replace (MAX_RETRIES <? MAX_RETRIES)%Z with false by done.
           cbn. by rewrite last_snoc.
        -- apply Htr. lia.
    + eexists attempts, (Some df), _. split; [reflexivity|]. cbn.
      split; [done|]. split; [by rewrite written_request|]. split; [lia|].
      split; [intros i Hi; rewrite Z.sub_diag in Hi; cbn in Hi; lia|].
      split; [lia|]. split; [rewrite Z.sub_diag; cbn; lia|].
      split; [by rewrite Nat.sub_0_r|by rewrite last_snoc].
Qed.
End RetryLoop.

(** *** File names *)

Lemma all_numeric_uint d : all_numeric (NilEmpty.string_of_uint d).
Proof. induction d; cbn; auto. Qed.

Lemma all_numeric_str n : all_numeric (str n).
Proof.
  unfold str. destruct (Z.to_int n) as [d|d]; cbn.
  - destruct d; cbn; auto using all_numeric_uint.
  - split; [done|]. destruct d; cbn; auto using all_numeric_uint.
Qed.

Lemma str_inj n n' : str n = str n' → n = n'.
Proof.
  unfold str. intros Heq. apply DecimalZ.to_int_inj.
  assert (Hnn : ∀ z, Z.to_int z ≠ Decimal.Pos Decimal.Nil
                     ∧ Z.to_int z ≠ Decimal.Neg Decimal.Nil).
  { intros [|p|p]; cbn; split; try discriminate;
      intros [= H]; by apply Unsigned.to_uint_nonnil in H. }
  destruct (Hnn n) as [H1 H2], (Hnn n') as [H1' H2'].
  pose proof (NilZero.isi _ H1 H2) as E. pose proof (NilZero.isi _ H1' H2') as E'.
  rewrite Heq in E. congruence.
Qed.

Lemma append_assoc (s1 s2 s3 : string) : (s1 +:+ s2) +:+ s3 = s1 +:+ (s2 +:+ s3).
Proof.
  induction s1 as [|c s1 IH]; [done|].
  repeat change (String ?a ?u +:+ ?v) with (String a (u +:+ v)). by rewrite IH.
Qed.

(** A numeric prefix followed by another character splits in one way. *)
Lemma numeric_prefix_inj s s' x x' :
  all_numeric s → all_numeric s' → starts_other x → starts_other x' →
  s +:+ x = s' +:+ x' → s = s' ∧ x = x'.
Proof.
  revert s'. induction s as [|c s IH]; intros [|c' s'] Hs Hs' Hx Hx';
    repeat change (String ?a ?u +:+ ?v) with (String a (u +:+ v));
    repeat change ("" +:+ ?v) with v.
  - done.
  - intros ->. cbn in Hx, Hs'. destruct Hs'. congruence.
  - intros <-. cbn in Hx', Hs. destruct Hs. congruence.
  - intros [= -> Heq]. cbn in Hs, Hs'. destruct Hs, Hs'.
    destruct (IH s') as [-> ->]; done.
Qed.

Lemma get_filename_inj team_id team_id' opp opp' lev lev' :
  fetch_onoff.get_filename team_id opp lev = fetch_onoff.get_filename team_id' opp' lev' →
  team_id = team_id' ∧ opp = opp' ∧ lev = lev'.
Proof.
  unfold fetch_onoff.get_filename. intros Heq.
  assert (Hsplit : ∀ t o l,
    (let name := str t in
     let name := if o : bool then name +:+ "_vs" else name in
     let name := if l : bool then name +:+ "_leverage" else name in
     name +:+ ".csv")
    = str t +:+ ((if o then "_vs" else "") +:+ (if l then "_leverage" else "") +:+ ".csv")).
  { intros t [] []; cbn zeta; rewrite ?append_assoc; done. }
  rewrite !Hsplit in Heq.
  apply numeric_prefix_inj in Heq as [Hs Hx]; try apply all_numeric_str.
  - apply str_inj in Hs. by destruct opp, opp', lev, lev'.
  - by destruct opp, lev.
  - by destruct opp', lev'.
Qed.

Section PullBlock.
Import fetch_onoff.
Variable remote : nat → Request → Reply Payload.
Implicit Types (w : World (list (gmap string Cell))) (acc : Block).

Lemma filepath_inj year_ t t' opp opp' lev lev' :
  filepath year_ t opp lev = filepath year_ t' opp' lev' →
  t = t' ∧ opp = opp' ∧ lev = lev'.
Proof.
  unfold filepath. intros H. apply String.app_inj in H.
  apply String.app_inj in H. by apply get_filename_inj.
Qed.

Lemma length_set_column c v (df : list (gmap string Cell)) :
  length (set_column c v df) = length df.
Proof. apply length_fmap. Qed.




Lemma length_tag_frame year_ season t opp df :
  length (tag_frame year_ season t opp df) = length df.
Proof.
  unfold tag_frame. cbv zeta. destruct (has_column _ _);
    by rewrite !length_set_column.
Qed.


(** The last effect of a unit: the pacing sleep after a success, the last
    request after a failure. *)
Lemma pull_unit_last_event year_ lev opp t acc w :
  ∃ acc' w',
    pull_unit remote year_ lev opp t acc w = (Some acc', w')
    ∧ ((fail_list acc' = fail_list acc ++ [(t, if opp then "Opponent" else "Team")]
        ∧ last (trace w')
          = Some (ERequest (wowy_request t (season_label year_) opp lev)))
       ∨ (fail_list acc' = fail_list acc
          ∧ last (trace w') = Some (ESleep SLEEP_BETWEEN))).
Proof.
  destruct (retry_loop_run remote t (season_label year_) opp lev
              (S (Z.to_nat MAX_RETRIES)) 0 w)
    as (a' & success & w1 & Hrun & _ & _ & _ & _ & Hend); [done|cbn; lia|].
  unfold pull_unit. cbv zeta. unfold mbind at 1, M_bind at 1. rewrite Hrun.
  destruct success as [df|].
  - destruct (decide _); eexists _, _; (split; [reflexivity|]); right; cbn;
      (split; [by destruct opp|by rewrite last_snoc]).
  - destruct Hend as (_ & _ & Hlast). eexists _, _. split; [reflexivity|].
    left. split; [done|]. by apply Hlast.
Qed.

End PullBlock.

Section OnOffMain.
Import fetch_onoff.
Variable remote : nat → Request → Reply Payload.
Implicit Types (w : World (list (gmap string Cell))) (acc : Block).

Lemma unique_from_spec {A} `{EqDecision A} (l : list A) : ∀ seen,
  NoDup (unique_from seen l)
  ∧ ∀ x, x ∈ unique_from seen l ↔ x ∈ l ∧ x ∉ seen.
Proof.
  induction l as [|a l IH]; intros seen; cbn.
  - split; [constructor|]. intros x. rewrite elem_of_nil. tauto.
  - destruct (decide (a ∈ seen)) as [Hin|Hnin].
    + destruct (IH seen) as [Hnd Hiff]. split; [done|].
      intros x. rewrite Hiff, elem_of_cons. split; [tauto|].
      intros [[->|?] ?]; tauto.
    + destruct (IH (a :: seen)) as [Hnd Hiff]. split.
      * constructor; [|done]. rewrite Hiff, elem_of_cons. tauto.
      * intros x. rewrite !elem_of_cons, Hiff, elem_of_cons.
        destruct (decide (x = a)) as [->|]; tauto.
Qed.

Lemma fetch_team_ids_NoDup index_master year_ :
  NoDup (fetch_team_ids index_master year_).
Proof.
  unfold fetch_team_ids, sorted, unique. cbv zeta.
  rewrite merge_sort_Permutation. apply unique_from_spec.
Qed.


End OnOffMain.

(* ------------------------------------------------------------------ *)
(** ** Derived columns                                                 *)
(* ------------------------------------------------------------------ *)

Section FloatDivision.
(** IEEE division by a zero: NaN for 0/0 and NaN/0, an infinity for the
    rest. *)
Lemma Prim2SF_zero d : is_zero d = true → ∃ s, Prim2SF d = S754_zero s.
Proof.
  unfold is_zero. rewrite FloatAxioms.eqb_spec.
  change (Prim2SF PrimFloat.zero) with (S754_zero false).
  destruct (Prim2SF d) as [s|s| |s m e]; [eauto|..]; cbn; try done;
    by destruct s.
Qed.

Lemma SFeqb_finite_refl s m e :
  SFeqb (S754_finite s m e) (S754_finite s m e) = true.
Proof.
  unfold SFeqb, SFcompare. rewrite Z.compare_refl, Pos.compare_cont_refl.
  by destruct s.
Qed.

Lemma is_nan_spec x : is_nan x = match Prim2SF x with S754_nan => true | _ => false end.
Proof.
  unfold is_nan. rewrite FloatAxioms.eqb_spec.
  destruct (Prim2SF x) as [s|s| |s m e]; [by destruct s..|done|].
  by rewrite SFeqb_finite_refl.
Qed.

Lemma is_infinity_spec x :
  is_infinity x = match Prim2SF x with S754_infinity _ => true | _ => false end.
Proof.
  unfold is_infinity. rewrite FloatAxioms.eqb_spec, FloatAxioms.abs_spec.
  change (Prim2SF infinity) with (S754_infinity false).
  by destruct (Prim2SF x) as [s|s| |s m e].
Qed.

Lemma is_zero_spec x :
  is_zero x = match Prim2SF x with S754_zero _ => true | _ => false end.
Proof.
  unfold is_zero. rewrite FloatAxioms.eqb_spec.
  change (Prim2SF PrimFloat.zero) with (S754_zero false).
  destruct (Prim2SF x) as [s|s| |s m e]; cbn; try done; by destruct s.
Qed.

Lemma div_by_zero x d :
  is_zero d = true →
  is_nan (x / d) = is_nan x || is_zero x
  ∧ is_infinity (x / d) = negb (is_nan x || is_zero x).
Proof.
  intros [s Hd]%Prim2SF_zero.
  rewrite !is_nan_spec, is_infinity_spec, is_zero_spec, FloatAxioms.div_spec, Hd.
  unfold SF64div, SFdiv. by destruct (Prim2SF x).
Qed.
End FloatDivision.

(** C4.  [add_derived_cols] sets, in every row, FTA_Rate to FTA / (FG3A + FG2A)
    and TOV% to 100 * Turnovers / ((FG3A + FG2A) + 0.44 * FTA + Turnovers -
    OffRebounds), and leaves the other columns; for FG3A=10, FG2A=20,
    FTA=15, Turnovers=12, OffRebounds=8 these are 0.5 and 1200/40.6, which is
    between 29.55 and 29.57. *)
Theorem add_derived_cols_formulas :
  (∀ df : list fetch_season_totals.Row,
     let out := fetch_season_totals.add_derived_cols df in
     fetch_season_totals.FTA_Rate <$> out
     = (λ r, fetch_season_totals.FTA r
             / (fetch_season_totals.FG3A r + fetch_season_totals.FG2A r))%float <$> df
     ∧ fetch_season_totals.TOV_pct <$> out
       = (λ r, 100 * fetch_season_totals.Turnovers r
               / ((fetch_season_totals.FG3A r + fetch_season_totals.FG2A r)
                  + 0.44 * fetch_season_totals.FTA r
                  + fetch_season_totals.Turnovers r
                  - fetch_season_totals.OffRebounds r))%float <$> df
     ∧ fetch_season_totals.year <$> out = fetch_season_totals.year <$> df
     ∧ fetch_season_totals.FG3A <$> out = fetch_season_totals.FG3A <$> df
     ∧ fetch_season_totals.FG2A <$> out = fetch_season_totals.FG2A <$> df
     ∧ fetch_season_totals.FTA <$> out = fetch_season_totals.FTA <$> df
     ∧ fetch_season_totals.Turnovers <$> out = fetch_season_totals.Turnovers <$> df
     ∧ fetch_season_totals.OffRebounds <$> out = fetch_season_totals.OffRebounds <$> df
     ∧ fetch_season_totals.others <$> out = fetch_season_totals.others <$> df)
  ∧ (∀ year old_rate old_tov others,
       fetch_season_totals.add_derived_cols
         [fetch_season_totals.mkRow year 10 20 15 12 8 old_rate old_tov others]
       = [fetch_season_totals.mkRow year 10 20 15 12 8 0.5 (1200 / 40.6) others])
  ∧ (29.55 <? 1200 / 40.6)%float = true
  ∧ (1200 / 40.6 <? 29.57)%float = true.
Proof.
  split; [|split; [|split]].
  - intros df out. unfold out, fetch_season_totals.add_derived_cols.
    rewrite <- !list_fmap_compose. repeat split; by apply list_fmap_ext.
  - intros. reflexivity.
  - reflexivity.
  - reflexivity.
Qed.

(** C3 as stated fails.  A file in key order with one row a year, whose 2025
    row has an FTA_Rate of 0.9 where its base columns give 0.5: merging a
    row of 2026 rewrites the 2025 row.  And the hand-written file of
    [Samples], out of order and with 2025 twice: merging a row of 2026
    leaves its other rows re-ordered and one fewer. *)
Lemma update_csv_rewrites_other_rows :
  (∃ t w',
     files Samples.stale_disk !! "data/season_totals.csv" = Some Samples.stale_csv
     ∧ fetch_season_totals.year <$> Samples.stale_csv = [2025; 2026]%Z
     ∧ fetch_season_totals.update_csv "data/season_totals.csv" [Samples.fresh] 2026
         Samples.stale_disk = (inr t, w')
     ∧ fetch_season_totals.FTA_Rate
         <$> filter (λ r', fetch_season_totals.year r' ≠ 2026%Z) Samples.stale_csv
       = [0.9%float]
     ∧ fetch_season_totals.FTA_Rate
         <$> filter (λ r', fetch_season_totals.year r' ≠ 2026%Z) t
       = [0.5%float]
     ∧ filter (λ r', fetch_season_totals.year r' ≠ 2026%Z) t
       ≠ filter (λ r', fetch_season_totals.year r' ≠ 2026%Z) Samples.stale_csv)
  ∧ (∃ t w',
       files Samples.disk !! "data/season_totals.csv" = Some Samples.season_totals_csv
       ∧ fetch_season_totals.update_csv "data/season_totals.csv" [Samples.fresh] 2026
           Samples.disk = (inr t, w')
       ∧ fetch_season_totals.year <$> Samples.season_totals_csv
         = [2025; 2026; 2024; 2025]%Z
       ∧ fetch_season_totals.year <$> t = [2024; 2025; 2026]%Z
       ∧ filter (λ r', fetch_season_totals.year r' ≠ 2026%Z) t
         ≠ filter (λ r', fetch_season_totals.year r' ≠ 2026%Z) Samples.season_totals_csv).
Proof.
  split.
  - eexists _, _. split; [reflexivity|]. split; [reflexivity|].
    split; [vm_compute; reflexivity|].
    split; [reflexivity|]. split; [reflexivity|].
    intros H. apply (f_equal (fmap fetch_season_totals.FTA_Rate)) in H.
    apply (f_equal (λ l, match l with x :: _ => (x <? 0.7)%float | [] => false end)) in H.
    vm_compute in H. discriminate H.
  - eexists _, _. split; [reflexivity|]. split; [vm_compute; reflexivity|].
    split; [reflexivity|]. split; [reflexivity|].
    intros H. apply (f_equal length) in H. vm_compute in H. discriminate H.
Qed.

(** C3 as the code has it.  Merging rows of key [k] into a file that has a
    row of key [k] leaves exactly one row of key [k], the (last) new row with
    its derived columns.  The rows of the other keys are those of the file
    with the last of each key kept, put in key order and derived again; they
    are the rows the file had exactly when those were in strictly ascending
    key order with their derived columns up to date, which is so in every
    table an earlier merge wrote. *)
Theorem update_csv_replaces_only_key
    (path : string) (new_data : list fetch_season_totals.Row)
    (r : fetch_season_totals.Row) (k : Z)
    (w : World (list fetch_season_totals.Row))
    (prior : list fetch_season_totals.Row) :
  files w !! path = Some prior →
  k ∈ fetch_season_totals.year <$> prior →
  Forall (λ r', fetch_season_totals.year r' = k) (new_data ++ [r]) →
  ∃ t w',
    fetch_season_totals.update_csv path (new_data ++ [r]) k w = (inr t, w')
    ∧ files w' !! path = Some t
    ∧ filter (λ r', fetch_season_totals.year r' = k) t
      = [fetch_season_totals.derive_row r]
    ∧ filter (λ r', fetch_season_totals.year r' ≠ k) t
      = fetch_season_totals.add_derived_cols
          (fetch_season_totals.sort_values
             (fetch_season_totals.drop_duplicates
                (filter (λ r', fetch_season_totals.year r' ≠ k) prior)))
    ∧ (filter (λ r', fetch_season_totals.year r' ≠ k) t
       = filter (λ r', fetch_season_totals.year r' ≠ k) prior
       ↔ fetch_season_totals.strictly_ascending
           (filter (λ r', fetch_season_totals.year r' ≠ k) prior)
         ∧ fetch_season_totals.add_derived_cols
             (filter (λ r', fetch_season_totals.year r' ≠ k) prior)
           = filter (λ r', fetch_season_totals.year r' ≠ k) prior)
    ∧ (∀ path0 new0 k0 w0 w0',
         fetch_season_totals.update_csv path0 new0 k0 w0 = (inr prior, w0') →
         filter (λ r', fetch_season_totals.year r' ≠ k) t
         = filter (λ r', fetch_season_totals.year r' ≠ k) prior).
Proof.
  intros Hfile _ Hnew.
  destruct (update_csv_others path new_data r k w prior Hfile Hnew)
    as (t & w' & Hrun & Hf & Hk & Ho).
  exists t, w'. split; [done|]. split; [done|]. split; [done|].
  split; [by rewrite Ho; unfold fetch_season_totals.merged; rewrite app_nil_r|].
  rewrite Ho. split; [apply merged_nothing|].
  intros path0 new0 k0 w0 w0' Hprior.
  apply merged_nothing. by eapply update_csv_invariant_others.
Qed.

(** C5 as the code has it.  With a zero denominator the derived value is
    not finite: NaN when the numerator is zero or NaN, an infinity
    otherwise; and the merge of such a row into a file that holds rows goes
    through, the row with these derived values being in the table written.
    (A file with a header and no rows is read with columns that are not
    numeric; the division raises there, see the head of this file.) *)
Theorem derived_cols_zero_denominator (r : fetch_season_totals.Row) :
  let fga := (fetch_season_totals.FG3A r + fetch_season_totals.FG2A r)%float in
  let den := (fga + 0.44 * fetch_season_totals.FTA r
              + fetch_season_totals.Turnovers r
              - fetch_season_totals.OffRebounds r)%float in
  let num := (100 * fetch_season_totals.Turnovers r)%float in
  let out := fetch_season_totals.derive_row r in
  (is_zero fga = true →
     is_nan (fetch_season_totals.FTA_Rate out)
     = is_nan (fetch_season_totals.FTA r) || is_zero (fetch_season_totals.FTA r)
     ∧ is_infinity (fetch_season_totals.FTA_Rate out)
       = negb (is_nan (fetch_season_totals.FTA r) || is_zero (fetch_season_totals.FTA r)))
  ∧ (is_zero den = true →
     is_nan (fetch_season_totals.TOV_pct out) = is_nan num || is_zero num
     ∧ is_infinity (fetch_season_totals.TOV_pct out) = negb (is_nan num || is_zero num))
  ∧ (∀ path (w : World (list fetch_season_totals.Row)) existing,
       files w !! path = Some existing → existing ≠ [] →
       ∃ t w',
         fetch_season_totals.update_csv path [r] (fetch_season_totals.year r) w
         = (inr t, w')
         ∧ files w' !! path = Some t
         ∧ filter (λ r', fetch_season_totals.year r' = fetch_season_totals.year r) t
           = [out]).
Proof.
  cbv zeta. split; [|split].
  - apply div_by_zero.
  - apply div_by_zero.
  - intros path w existing Hfile _. eexists _, _.
    split; [apply update_csv_run; by right|]. split; [apply lookup_insert_eq|].
    apply (merged_replace_key _ [] r); [apply kept_not_key|by repeat constructor].
Qed.

(** C5 as stated fails: no field-goal attempts and five free throws give an
    FTA_Rate of +infinity, and a zero TOV% denominator under one turnover
    gives +infinity, neither of them NaN. *)
Lemma zero_denominator_not_nan :
  let r1 := fetch_season_totals.mkRow 2026 0 0 5 1 1 nan nan [] in
  let r2 := fetch_season_totals.mkRow 2026 0 0 0 1 1 nan nan [] in
  is_zero (fetch_season_totals.FG3A r1 + fetch_season_totals.FG2A r1) = true
  ∧ fetch_season_totals.FTA_Rate (fetch_season_totals.derive_row r1) = infinity
  ∧ is_nan (fetch_season_totals.FTA_Rate (fetch_season_totals.derive_row r1)) = false
  ∧ is_zero ((fetch_season_totals.FG3A r2 + fetch_season_totals.FG2A r2)
             + 0.44 * fetch_season_totals.FTA r2 + fetch_season_totals.Turnovers r2
             - fetch_season_totals.OffRebounds r2) = true
  ∧ fetch_season_totals.TOV_pct (fetch_season_totals.derive_row r2) = infinity
  ∧ is_nan (fetch_season_totals.TOV_pct (fetch_season_totals.derive_row r2)) = false.
Proof. repeat split; reflexivity. Qed.

(** C6.  The retry loop of [pull_block] ends after at most [MAX_RETRIES]
    requests: a success was the request after [attempts] failures, with
    [attempts + 1 <= MAX_RETRIES]; a failure has made exactly [MAX_RETRIES]
    requests.  [fetch_totals], with its own ceiling of 15, makes at most 15
    requests and exactly 15 when it gives up. *)
Theorem retry_ceiling :
  (∀ (remote : nat → Request → Reply fetch_onoff.Payload)
     (team_id : Z) (season : string) (opp leverage : bool)
     (w : World (list (gmap string fetch_onoff.Cell))),
     ∃ attempts success w',
       fetch_onoff.retry_loop remote (S (Z.to_nat fetch_onoff.MAX_RETRIES))
         team_id season opp leverage 0 None w = (Some (attempts, success), w')
       ∧ (Z.of_nat (sent w' - sent w) ≤ fetch_onoff.MAX_RETRIES)%Z
       ∧ match success with
         | Some _ => (Z.of_nat (sent w' - sent w) = attempts + 1)%Z
         | None => (Z.of_nat (sent w' - sent w) = fetch_onoff.MAX_RETRIES)%Z
                   ∧ attempts = fetch_onoff.MAX_RETRIES
         end)
  ∧ (∀ (remote : nat → Request → Reply fetch_season_totals.Payload)
       (year : Z) (season_type : string) (leverage : bool)
       (w : World (list fetch_season_totals.Row)),
       ∃ data w',
         fetch_season_totals.fetch_totals remote year season_type leverage w
         = (Some data, w')
         ∧ (1 ≤ Z.of_nat (sent w' - sent w) ≤ fetch_season_totals.max_retries)%Z
         ∧ (data = [] →
            Z.of_nat (sent w' - sent w) = fetch_season_totals.max_retries)
         ∧ (data = [] ↔
            ∀ i, (i < Z.to_nat fetch_season_totals.max_retries)%nat →
                 fetch_season_totals.attempt_fails remote year season_type leverage
                   (sent w + i))).
Proof.
  split.
  - intros. destruct (retry_loop_run remote team_id season opp leverage
                        (S (Z.to_nat fetch_onoff.MAX_RETRIES)) 0 w)
      as (a' & success & w' & Hrun & _ & _ & Hle & _ & Hend); [done|cbn; lia|].
    exists a', success, w'. split; [done|].
    unfold fetch_onoff.MAX_RETRIES in *.
    destruct success as [df|].
    + destruct Hend as (Hlt & Hsent & _). lia.
    + destruct Hend as (-> & Hsent & _). cbn in Hsent. lia.
  - intros. destruct (fetch_totals_run remote year season_type leverage w)
      as (data & w' & Hrun & _ & _ & Hsent & Hiff & Hex & _).
    exists data, w'. split; [done|].
    unfold fetch_season_totals.max_retries in *. cbn in Hsent, Hex.
    split; [lia|]. split; [intros Hd; rewrite (Hex Hd); lia|done].
Qed.

(* ------------------------------------------------------------------ *)
(** ** The properties at sample inputs                                 *)
(* ------------------------------------------------------------------ *)

Example update_csv_sample :
  (fetch_season_totals.year <$>
     (fetch_season_totals.merged
        (fetch_season_totals.kept (Some Samples.season_totals_csv) 2026)
        [Samples.fresh]))
  = [2024; 2025; 2026]%Z.
Proof. reflexivity. Qed.

Example fetch_team_ids_sample :
  fetch_onoff.fetch_team_ids OnOffSamples.index_master fetch_onoff.REFERENCE_YEAR
  = [1610612737%Z].
Proof. vm_compute. reflexivity. Qed.

Lemma update_csv_idempotent_witness :
  fetch_season_totals.year Samples.fresh = 2026%Z
  ∧ ∃ t w1 w2,
      fetch_season_totals.update_csv "data/season_totals.csv" [Samples.fresh] 2026
        Samples.disk = (inr t, w1)
      ∧ fetch_season_totals.update_csv "data/season_totals.csv" [Samples.fresh] 2026
          w1 = (inr t, w2)
      ∧ files w1 !! "data/season_totals.csv" = Some t
      ∧ files w2 !! "data/season_totals.csv" = Some t
      ∧ length (filter (λ r', fetch_season_totals.year r' = 2026%Z) t) = 1.
Proof.
  split; [reflexivity|].
  apply (update_csv_idempotent "data/season_totals.csv" Samples.fresh 2026 Samples.disk).
  reflexivity.
Defined.

Lemma update_csv_sorted_unique_keys_witness :
  (files Samples.disk !! "data/season_totals.csv" ≠ None ∨ [Samples.fresh] ≠ [])
  ∧ ∃ t w',
      fetch_season_totals.update_csv "data/season_totals.csv" [Samples.fresh] 2026
        Samples.disk = (inr t, w')
      ∧ files w' !! "data/season_totals.csv" = Some t
      ∧ StronglySorted
          (λ a b, (fetch_season_totals.year a < fetch_season_totals.year b)%Z) t
      ∧ NoDup (fetch_season_totals.year <$> t).
Proof.
  assert (H : files Samples.disk !! "data/season_totals.csv" ≠ None
              ∨ [Samples.fresh] ≠ []) by (right; discriminate).
  split; [exact H|].
  exact (update_csv_sorted_unique_keys "data/season_totals.csv" [Samples.fresh] 2026
           Samples.disk H).
Defined.

Lemma update_csv_replaces_only_key_witness :
  files Samples.synced !! "data/season_totals.csv" = Some Samples.synced_table
  ∧ 2026%Z ∈ fetch_season_totals.year <$> Samples.synced_table
  ∧ Forall (λ r', fetch_season_totals.year r' = 2026%Z) ([] ++ [Samples.updated])
  ∧ fetch_season_totals.update_csv "data/season_totals.csv" [Samples.fresh] 2026
      Samples.disk = (inr Samples.synced_table, Samples.synced)
  ∧ ∃ t w',
      fetch_season_totals.update_csv "data/season_totals.csv" ([] ++ [Samples.updated])
        2026 Samples.synced = (inr t, w')
      ∧ files w' !! "data/season_totals.csv" = Some t
      ∧ filter (λ r', fetch_season_totals.year r' = 2026%Z) t
        = [fetch_season_totals.derive_row Samples.updated]
      ∧ filter (λ r', fetch_season_totals.year r' ≠ 2026%Z) t
        = fetch_season_totals.add_derived_cols
            (fetch_season_totals.sort_values
               (fetch_season_totals.drop_duplicates
                  (filter (λ r', fetch_season_totals.year r' ≠ 2026%Z)
                     Samples.synced_table)))
      ∧ (filter (λ r', fetch_season_totals.year r' ≠ 2026%Z) t
         = filter (λ r', fetch_season_totals.year r' ≠ 2026%Z) Samples.synced_table
         ↔ fetch_season_totals.strictly_ascending
             (filter (λ r', fetch_season_totals.year r' ≠ 2026%Z) Samples.synced_table)
           ∧ fetch_season_totals.add_derived_cols
               (filter (λ r', fetch_season_totals.year r' ≠ 2026%Z) Samples.synced_table)
             = filter (λ r', fetch_season_totals.year r' ≠ 2026%Z) Samples.synced_table)
      ∧ (∀ path0 new0 k0 w0 w0',
           fetch_season_totals.update_csv path0 new0 k0 w0
           = (inr Samples.synced_table, w0') →
           filter (λ r', fetch_season_totals.year r' ≠ 2026%Z) t
           = filter (λ r', fetch_season_totals.year r' ≠ 2026%Z) Samples.synced_table).
Proof.
  assert (H1 : files Samples.synced !! "data/season_totals.csv"
               = Some Samples.synced_table) by reflexivity.
  assert (H2 : 2026%Z ∈ fetch_season_totals.year <$> Samples.synced_table).
  { change (2026%Z ∈ [2024; 2025; 2026]%Z). rewrite !elem_of_cons. auto. }
  assert (H3 : Forall (λ r', fetch_season_totals.year r' = 2026%Z)
                 ([] ++ [Samples.updated])) by (repeat constructor).
  assert (H0 : fetch_season_totals.update_csv "data/season_totals.csv" [Samples.fresh]
                 2026 Samples.disk = (inr Samples.synced_table, Samples.synced))
    by (vm_compute; reflexivity).
  split; [exact H1|]. split; [exact H2|]. split; [exact H3|]. split; [exact H0|].
  exact (update_csv_replaces_only_key "data/season_totals.csv" [] Samples.updated 2026
           Samples.synced Samples.synced_table H1 H2 H3).
Defined.

Lemma derived_cols_zero_denominator_witness :
  is_zero (fetch_season_totals.FG3A Samples.no_attempts
           + fetch_season_totals.FG2A Samples.no_attempts) = true
  ∧ files Samples.disk !! "data/season_totals.csv" = Some Samples.season_totals_csv
  ∧ Samples.season_totals_csv ≠ []
  ∧ is_infinity
      (fetch_season_totals.FTA_Rate (fetch_season_totals.derive_row Samples.no_attempts))
    = true
  ∧ ∃ t w',
      fetch_season_totals.update_csv "data/season_totals.csv" [Samples.no_attempts] 2026
        Samples.disk = (inr t, w')
      ∧ files w' !! "data/season_totals.csv" = Some t
      ∧ filter (λ r', fetch_season_totals.year r' = 2026%Z) t
        = [fetch_season_totals.derive_row Samples.no_attempts].
Proof.
  assert (H1 : is_zero (fetch_season_totals.FG3A Samples.no_attempts
                        + fetch_season_totals.FG2A Samples.no_attempts) = true)
    by reflexivity.
  assert (H2 : files Samples.disk !! "data/season_totals.csv"
               = Some Samples.season_totals_csv) by reflexivity.
  assert (H3 : Samples.season_totals_csv ≠ []) by discriminate.
  split; [exact H1|]. split; [exact H2|]. split; [exact H3|].
  split.
  - exact (proj2 (proj1 (derived_cols_zero_denominator Samples.no_attempts) H1)).
  - exact (proj2 (proj2 (derived_cols_zero_denominator Samples.no_attempts))
             "data/season_totals.csv" Samples.disk Samples.season_totals_csv H2 H3).
Defined.

(** C7 on the code.  [fetch_totals] never looks at the status: a 503 whose
    body has the row is a successful fetch on the first attempt, while
    [lineuppull] raises on the same status. *)
Theorem fetch_totals_accepts_error_status :
  (∀ status_code year row,
     fetch_season_totals.read_totals year
       (Response status_code (Some (fetch_season_totals.mkPayload (Some row))))
     = inr [fetch_season_totals.set_year year row])
  ∧ fetch_season_totals.fetch_totals Samples.error_with_row 2026 "Regular Season"
      false Samples.empty_disk
    = (Some [Samples.fresh],
       mkWorld 1 ∅
         [ESleep 2;
          ERequest (fetch_season_totals.totals_request 2026 "Regular Season" false)])
  ∧ (∀ rows,
       fetch_onoff.read_wowy
         (Response 503 (Some (fetch_onoff.mkPayload (Some rows))))
       = inl (HTTPError 503)).
Proof. split; [done|]. split; [vm_compute; reflexivity|done]. Qed.

(** C8 on the code.  The pacing sleep is the last effect of a unit that
    succeeded; a unit that failed ends with its last request and nothing
    after it.  With the remote down, the one team of the roster fails on
    both sides; the trace has the five requests of each side with
    [RETRY_DELAY] between them, and no [SLEEP_BETWEEN] anywhere: the first
    Opponent request follows the last Team request at once. *)
Theorem no_pacing_after_failed_unit :
  (∀ (remote : nat → Request → Reply fetch_onoff.Payload) (year_ : Z)
     (leverage opp : bool) (team_id : Z) (acc : fetch_onoff.Block)
     (w : World (list (gmap string fetch_onoff.Cell))),
     ∃ acc' w',
       fetch_onoff.pull_unit remote year_ leverage opp team_id acc w = (Some acc', w')
       ∧ ((fetch_onoff.fail_list acc'
           = fetch_onoff.fail_list acc ++ [(team_id, if opp then "Opponent" else "Team")]
           ∧ last (trace w')
             = Some (ERequest (fetch_onoff.wowy_request team_id (season_label year_)
                                 opp leverage)))
          ∨ (fetch_onoff.fail_list acc' = fetch_onoff.fail_list acc
             ∧ last (trace w') = Some (ESleep fetch_onoff.SLEEP_BETWEEN))))
  ∧ (let request opp := ERequest (fetch_onoff.wowy_request 7 "2025-26" opp false) in
     let retry := ESleep fetch_onoff.RETRY_DELAY in
     ∃ w',
       fetch_onoff.pull_block OnOffSamples.down [7%Z] 2026 false OnOffSamples.empty_disk
       = (Some (fetch_onoff.mkBlock [] [] [(7%Z, "Team"); (7%Z, "Opponent")]), w')
       ∧ trace w'
         = [request false; retry; request false; retry; request false; retry;
            request false; retry; request false;
            request true; retry; request true; retry; request true; retry;
            request true; retry; request true]
       ∧ ESleep fetch_onoff.SLEEP_BETWEEN ∉ trace w').
Proof.
  split; [apply pull_unit_last_event|].
  cbv zeta. eexists. split; [vm_compute; reflexivity|]. cbn [trace].
  split; [reflexivity|].
  intros Hin. repeat (apply elem_of_cons in Hin as [Hin|Hin]; [discriminate|]).
  by apply elem_of_nil in Hin.
Qed.

Section SeasonGaveUp.
Import fetch_season_totals.
Variable remote : nat → Request → Reply Payload.
Variable script_dir : string.
Implicit Types (w : World (list Row)).


End SeasonGaveUp.




(* ------------------------------------------------------------------ *)
(** ** Further properties: the merge                                   *)
(* ------------------------------------------------------------------ *)

Section MergeContent.
Import fetch_season_totals.
Implicit Types (df ex new : list Row) (r : Row) (k y : Z) (w : World (list Row)).

Lemma filter_key_nil df y :
  y ∉ year <$> df → filter (λ r, year r = y) df = [].
Proof.
  intros Hnin. apply filter_none, Forall_forall. intros r Hin Heq.
  apply Hnin, list_elem_of_fmap. eauto.
Qed.

Lemma filter_key_not_nil df y :
  y ∈ year <$> df → filter (λ r, year r = y) df ≠ [].
Proof.
  intros (r & -> & Hin)%list_elem_of_fmap Hnil.
  assert (r ∈ filter (λ r', year r' = year r) df) as Hr
    by (by apply list_elem_of_filter).
  rewrite Hnil in Hr. by apply elem_of_nil in Hr.
Qed.

(** For every key, [drop_duplicates] keeps the last row that has it. *)
Lemma drop_duplicates_filter_key df y :
  filter (λ r, year r = y) (drop_duplicates df)
  = option_list (last (filter (λ r, year r = y) df)).
Proof.
  induction df as [|r df IH]; [done|]. cbn [drop_duplicates].
  case_bool_decide as Hin.
  - rewrite IH, (filter_cons _ r df). destruct (decide (year r = y)) as [Hy|Hy]; [|done].
    rewrite <- Hy in *. apply filter_key_not_nil in Hin.
    destruct (filter _ df) as [|r' l]; [done|]. done.
  - rewrite !filter_cons. destruct (decide (year r = y)) as [Hy|Hy]; [|done].
    rewrite <- Hy in *. rewrite IH, (filter_key_nil df) by done. done.
Qed.

Lemma drop_duplicates_sublist df : drop_duplicates df `sublist_of` df.
Proof.
  induction df as [|r df IH]; cbn; [done|].
  case_bool_decide; [by apply sublist_cons|by apply sublist_skip].
Qed.

Lemma Permutation_short {A} (l l' : list A) :
  l ≡ₚ l' → length l' ≤ 1 → l = l'.
Proof.
  intros Hp Hlen. destruct l' as [|a [|b l']]; cbn in Hlen; [|..|lia].
  - by apply Permutation_nil_r.
  - by apply Permutation_singleton_r.
Qed.

Lemma merged_filter_key ex new y :
  filter (λ r, year r = y) (merged ex new)
  = derive_row <$> option_list (last (filter (λ r, year r = y) (ex ++ new))).
Proof.
  unfold merged.
  etrans; [apply (@add_derived_cols_filter (λ y', y' = y) (λ y', decide_rel (=) y' y))|].
  unfold add_derived_cols. f_equal.
  rewrite <- drop_duplicates_filter_key. apply Permutation_short.
  - by rewrite sort_values_Permutation.
  - rewrite drop_duplicates_filter_key. destruct (last _); cbn; lia.
Qed.
End MergeContent.

Lemma merged_keys (on_disk : option (list fetch_season_totals.Row))
    (new_data : list fetch_season_totals.Row) (k y : Z) :
  y ∈ fetch_season_totals.year
        <$> fetch_season_totals.merged (fetch_season_totals.kept on_disk k) new_data
  ↔ y ∈ fetch_season_totals.year <$> new_data
    ∨ (y ≠ k ∧ ∃ existing, on_disk = Some existing
                 ∧ y ∈ fetch_season_totals.year <$> existing).
Proof.
  unfold fetch_season_totals.merged.
  rewrite year_add_derived_cols, sort_values_Permutation, drop_duplicates_keys.
  rewrite fmap_app, elem_of_app.
  destruct on_disk as [existing|]; cbn.
  - rewrite list_elem_of_fmap. setoid_rewrite list_elem_of_filter. split.
    + intros [(r & -> & Hne & Hin)|?]; [|by left].
      right. split; [done|]. exists existing. split; [done|].
      apply list_elem_of_fmap. eauto.
    + intros [?|(Hne & ex & [= <-] & (r & -> & Hin)%list_elem_of_fmap)];
        [by right|]. left. eauto.
  - rewrite elem_of_nil. split; [intros [[]|?]; by left|].
    intros [?|(_ & ex & ? & _)]; [by right|done].
Qed.

(** X1.  Whatever the file held, in the table [update_csv] writes every key
    has the last row that carries it among the kept rows followed by the
    new ones, with its derived columns; so a key is in the table exactly
    when a kept or a new row has it, and the key [year] itself only when a
    new row has it. *)
Theorem update_csv_last_row_per_key
    (path : string) (new_data : list fetch_season_totals.Row) (k : Z)
    (w w' : World (list fetch_season_totals.Row))
    (t : list fetch_season_totals.Row) :
  fetch_season_totals.update_csv path new_data k w = (inr t, w') →
  (∀ y,
     filter (λ r, fetch_season_totals.year r = y) t
     = fetch_season_totals.derive_row
       <$> option_list
             (last (filter (λ r, fetch_season_totals.year r = y)
                      (fetch_season_totals.kept (files w !! path) k ++ new_data))))
  ∧ (∀ y,
       y ∈ fetch_season_totals.year <$> t
       ↔ y ∈ fetch_season_totals.year <$> new_data
         ∨ (y ≠ k ∧ ∃ existing,
              files w !! path = Some existing
              ∧ y ∈ fetch_season_totals.year <$> existing))
  ∧ (k ∈ fetch_season_totals.year <$> t ↔ k ∈ fetch_season_totals.year <$> new_data).
Proof.
  intros [-> _]%update_csv_inr.
  split; [intros y; apply merged_filter_key|]. split; [intros y; apply merged_keys|].
  rewrite merged_keys. split; [|by left]. intros [?|[? _]]; done.
Qed.

(** X2.  When [update_csv] returns a table it has sent no request and has
    written once, to its own path: the file holds the table it returns, and
    every other file is as it was. *)
Theorem update_csv_effects
    (path : string) (new_data : list fetch_season_totals.Row) (k : Z)
    (w w' : World (list fetch_season_totals.Row))
    (t : list fetch_season_totals.Row) :
  fetch_season_totals.update_csv path new_data k w = (inr t, w') →
  sent w' = sent w
  ∧ trace w' = trace w ++ [EWrite path]
  ∧ files w' = <[path := t]> (files w)
  ∧ (∀ p, p ≠ path → files w' !! p = files w !! p).
Proof.
  intros Hrun. pose proof Hrun as [-> _]%update_csv_inr.
  destruct (decide (files w !! path ≠ None ∨ new_data ≠ [])) as [Hok|Hno].
  - rewrite update_csv_run in Hrun by done. injection Hrun as <-. cbn.
    split; [done|]. split; [done|]. split; [done|].
    intros p Hp. by rewrite lookup_insert_ne.
  - unfold fetch_season_totals.update_csv, mbind, M_bind, read_csv, mret, M_ret in Hrun.
    destruct (files w !! path) eqn:Hf, new_data; try discriminate;
      destruct Hno; auto.
Qed.

(** X3.  In the table [update_csv] writes, every row has its derived columns
    computed from its own base columns, also the rows carried over from
    the file, whatever derived values they had there. *)
Theorem update_csv_derives_every_row
    (path : string) (new_data : list fetch_season_totals.Row) (k : Z)
    (w w' : World (list fetch_season_totals.Row))
    (t : list fetch_season_totals.Row) :
  fetch_season_totals.update_csv path new_data k w = (inr t, w') →
  Forall (λ r,
    fetch_season_totals.FTA_Rate r
    = (fetch_season_totals.FTA r
       / (fetch_season_totals.FG3A r + fetch_season_totals.FG2A r))%float
    ∧ fetch_season_totals.TOV_pct r
      = (100 * fetch_season_totals.Turnovers r
         / ((fetch_season_totals.FG3A r + fetch_season_totals.FG2A r)
            + 0.44 * fetch_season_totals.FTA r
            + fetch_season_totals.Turnovers r
            - fetch_season_totals.OffRebounds r))%float) t.
Proof.
  intros [-> _]%update_csv_inr. unfold fetch_season_totals.merged,
    fetch_season_totals.add_derived_cols.
  apply Forall_fmap, Forall_forall. by intros r _.
Qed.

(* ------------------------------------------------------------------ *)
(** ** Further properties: the season-totals fetch and run             *)
(* ------------------------------------------------------------------ *)

Section FetchTotalsMore.
Import fetch_season_totals.
Variable remote : nat → Request → Reply Payload.
Implicit Types (w : World (list Row)).

Lemma totals_attempts_trace_S r n :
  (0 < n)%nat →
  totals_attempts_trace r (S n)
  = [ESleep 2; ERequest r; ESleep 2] ++ totals_attempts_trace r n.
Proof.
  intros Hn. unfold totals_attempts_trace.
  replace (S n - 1)%nat with (S (n - 1)) by lia. cbn [replicate].
  reflexivity.
Qed.

Lemma fetch_totals_loop_trace year st lev n : ∀ s w,
  (s + S n)%nat = Z.to_nat max_retries →
  ∃ data w',
    fetch_totals_loop remote ((λ i : nat, (1 + Z.of_nat i)%Z) <$> seq s (S n))
      year st lev w = (Some data, w')
    ∧ (sent w < sent w')%nat
    ∧ trace w'
      = trace w ++ totals_attempts_trace (totals_request year st lev) (sent w' - sent w).
Proof.
  induction n as [|n IH]; intros s w Hs;
    change (seq s (S ?k)) with (s :: seq (S s) k);
    rewrite fmap_cons, fetch_totals_loop_cons; cbn zeta;
    destruct (read_totals year _) as [e|df] eqn:Hread.
  - replace (1 + Z.of_nat s <? max_retries)%Z with false
      by (symmetry; apply Z.ltb_ge; unfold max_retries in *; lia).
    eexists [], _. split; [reflexivity|]. cbn. split; [lia|].
    replace (S (sent w) - sent w)%nat with 1%nat by lia.
    by rewrite <- app_assoc.
  - eexists df, _. split; [reflexivity|]. cbn. split; [lia|].
    replace (S (sent w) - sent w)%nat with 1%nat by lia.
    by rewrite <- app_assoc.
  - replace (1 + Z.of_nat s <? max_retries)%Z with true
      by (symmetry; apply Z.ltb_lt; unfold max_retries in *; lia).
    cbn [sent files trace].
    match goal with |- context [fetch_totals_loop _ _ _ _ _ ?w1] =>
      destruct (IH (S s) w1) as (data & w' & Hrun & Hsent & Htr)
    end; [lia|].
    cbn [sent files trace] in *.
    exists data, w'. split; [exact Hrun|]. split; [lia|].
    rewrite Htr.
    replace (sent w' - sent w)%nat with (S (sent w' - S (sent w))) by lia.
    rewrite totals_attempts_trace_S by lia.
    by rewrite <- !app_assoc.
  - eexists df, _. split; [reflexivity|]. cbn. split; [lia|].
    replace (S (sent w) - sent w)%nat with 1%nat by lia.
    by rewrite <- app_assoc.
Qed.

(** The first attempt that reads a table ends the loop with that table. *)
Lemma fetch_totals_loop_first_success year st lev df j : ∀ n s w,
  (j ≤ n)%nat →
  (s + S n)%nat = Z.to_nat max_retries →
  (∀ i, (i < j)%nat → attempt_fails remote year st lev (sent w + i)) →
  read_totals year (remote (sent w + j) (totals_request year st lev)) = inr df →
  ∃ w',
    fetch_totals_loop remote ((λ i : nat, (1 + Z.of_nat i)%Z) <$> seq s (S n))
      year st lev w = (Some df, w')
    ∧ sent w' = (sent w + j + 1)%nat
    ∧ files w' = files w.
Proof.
  induction j as [|j IH]; intros n s w Hj Hs Hfail Hok;
    change (seq s (S ?k)) with (s :: seq (S s) k);
    rewrite fmap_cons, fetch_totals_loop_cons; cbn zeta.
  - rewrite Nat.add_0_r in Hok. rewrite Hok.
    eexists. split; [reflexivity|]. cbn. split; [lia|done].
  - destruct (Hfail 0%nat) as [e He]; [lia|]. rewrite Nat.add_0_r in He.
    rewrite He.
    replace (1 + Z.of_nat s <? max_retries)%Z with true
      by (symmetry; apply Z.ltb_lt; unfold max_retries in *; lia).
    destruct n as [|n]; [lia|]. cbn [sent files trace].
    match goal with |- context [fetch_totals_loop _ _ _ _ _ ?w1] =>
      destruct (IH n (S s) w1) as (w' & Hrun & Hsent & Hf)
    end; cbn [sent files trace]; [lia|lia|..].
    + intros i Hi. replace (S (sent w) + i)%nat with (sent w + S i)%nat by lia.
      apply Hfail. lia.
    + by replace (S (sent w) + j)%nat with (sent w + S j)%nat by lia.
    + exists w'. split; [exact Hrun|]. cbn in Hsent, Hf. split; [lia|done].
Qed.
End FetchTotalsMore.

(** X4.  [fetch_totals] stops at the first attempt whose reply reads as a
    table: it returns that one-row table, whose key is the requested year
    whatever the payload said, after exactly that many requests, and asks
    nothing more. *)
Theorem fetch_totals_first_success
    (remote : nat → Request → Reply fetch_season_totals.Payload)
    (year : Z) (season_type : string) (leverage : bool)
    (w : World (list fetch_season_totals.Row))
    (j : nat) (df : list fetch_season_totals.Row) :
  (j < Z.to_nat fetch_season_totals.max_retries)%nat →
  (∀ i, (i < j)%nat →
        fetch_season_totals.attempt_fails remote year season_type leverage (sent w + i)) →
  fetch_season_totals.read_totals year
    (remote (sent w + j) (fetch_season_totals.totals_request year season_type leverage))
  = inr df →
  ∃ w',
    fetch_season_totals.fetch_totals remote year season_type leverage w = (Some df, w')
    ∧ sent w' = (sent w + j + 1)%nat
    ∧ files w' = files w
    ∧ length df = 1
    ∧ Forall (λ r, fetch_season_totals.year r = year) df.
Proof.
  intros Hj Hfail Hok.
  destruct (fetch_totals_loop_first_success remote year season_type leverage df j
              14 0 w) as (w' & Hrun & Hsent & Hf);
    [change (Z.to_nat fetch_season_totals.max_retries) with 15%nat in Hj; lia|done..|].
  exists w'. split; [exact Hrun|]. split; [done|]. split; [done|].
  apply read_totals_inr in Hok as [row ->]. split; [done|]. by repeat constructor.
Qed.

(** X5.  The effects of [fetch_totals] are its attempts and nothing else:
    a sleep of two seconds before each request, also the first, two more
    seconds after each failed attempt that is not the last, the same
    request every time, and no file written. *)
Theorem fetch_totals_trace
    (remote : nat → Request → Reply fetch_season_totals.Payload)
    (year : Z) (season_type : string) (leverage : bool)
    (w : World (list fetch_season_totals.Row)) :
  ∃ data w',
    fetch_season_totals.fetch_totals remote year season_type leverage w = (Some data, w')
    ∧ (sent w < sent w')%nat
    ∧ trace w'
      = trace w
        ++ totals_attempts_trace
             (fetch_season_totals.totals_request year season_type leverage)
             (sent w' - sent w)
    ∧ files w' = files w.
Proof.
  destruct (fetch_totals_loop_trace remote year season_type leverage 14 0 w)
    as (data & w' & Hrun & Hsent & Htr); [done|].
  destruct (fetch_totals_run remote year season_type leverage w)
    as (data' & w'' & Hrun' & Hf & _).
  unfold fetch_season_totals.fetch_totals in Hrun'.
  change (range 1 (fetch_season_totals.max_retries + 1))
    with ((λ i : nat, (1 + Z.of_nat i)%Z) <$> seq 0 15) in Hrun'.
  rewrite Hrun in Hrun'. injection Hrun' as <- <-.
  exists data, w'. done.
Qed.

Section SeasonMainMore.
Import fetch_season_totals.
Variable remote : nat → Request → Reply Payload.
Variable script_dir : string.
Implicit Types (w : World (list Row)).

(** One step of [main]: between one and fifteen requests, at most one
    write, to the step's file, and every other file as it was. *)
Lemma sync_effects file st lev year w :
  let w' := (sync remote script_dir file st lev year w).2 in
  (sent w < sent w' ≤ sent w + 15)%nat
  ∧ (∃ ps, written (trace w') = written (trace w) ++ ps
           ∧ ps `sublist_of` [DATA_DIR script_dir +:+ "/" +:+ file])
  ∧ (∀ p, p ≠ DATA_DIR script_dir +:+ "/" +:+ file → files w' !! p = files w !! p).
Proof.
  cbv zeta.
  destruct (fetch_totals_run remote year st lev w)
    as (data & w1 & Hrun & Hf & Hwr & Hsent & _).
  destruct (sync_run remote script_dir file st lev year w)
    as (data' & w1' & Hrun' & _ & _ & Hempty & Hrows).
  rewrite Hrun in Hrun'. injection Hrun' as <- <-.
  change (Z.to_nat max_retries) with 15%nat in Hsent.
  destruct (decide (data = [])) as [Hd|Hd].
  - rewrite (Hempty Hd). cbn. split; [lia|]. split; [|by rewrite Hf].
    exists []. rewrite app_nil_r. split; [done|]. apply sublist_nil_l.
  - destruct (Hrows Hd) as [t ->]. cbn. split; [lia|]. split.
    + eexists [_]. rewrite written_write, Hwr. done.
    + intros p Hp. by rewrite lookup_insert_ne, Hf.
Qed.
End SeasonMainMore.

(** X6.  A run of the season-totals [main] sends at least one and at most
    60 requests, writes nothing but the four season-totals files, each at
    most once and in the order of the four steps, and leaves every other
    file as it was.  (A run that an uncaught exception of [update_csv] ends
    early has sent its first request and has done an initial part of these
    effects, so it is within the same bounds.) *)
Theorem season_main_effects
    (remote : nat → Request → Reply fetch_season_totals.Payload)
    (script_dir : string) (arg_year : option Z) (now_year now_month : Z)
    (w : World (list fetch_season_totals.Row)) :
  let csv file := fetch_season_totals.DATA_DIR script_dir +:+ "/" +:+ file in
  let four := [csv "season_totals.csv"; csv "season_totals_playoffs.csv";
               csv "season_totals_leverage.csv";
               csv "season_totals_playoffs_leverage.csv"] in
  let w' := (fetch_season_totals.main remote script_dir arg_year now_year now_month w).2 in
  (sent w < sent w' ≤ sent w + 60)%nat
  ∧ (∃ ps, written (trace w') = written (trace w) ++ ps ∧ ps `sublist_of` four)
  ∧ (∀ p, p ∉ four → files w' !! p = files w !! p).
Proof.
  cbv zeta. rewrite season_main_run. cbn [snd].
  set (year := fetch_season_totals.target_year arg_year now_year now_month).
  destruct (sync_effects remote script_dir "season_totals.csv" "Regular Season"
              false year w) as (Hs1 & (ps1 & Hw1 & Hp1) & Hf1).
  set (w1 := (fetch_season_totals.sync remote script_dir "season_totals.csv" _ _ _ w).2) in *.
  destruct (sync_effects remote script_dir "season_totals_playoffs.csv" "Playoffs"
              false year w1) as (Hs2 & (ps2 & Hw2 & Hp2) & Hf2).
  set (w2 := (fetch_season_totals.sync remote script_dir "season_totals_playoffs.csv" _ _ _ w1).2) in *.
  destruct (sync_effects remote script_dir "season_totals_leverage.csv" "Regular Season"
              true year w2) as (Hs3 & (ps3 & Hw3 & Hp3) & Hf3).
  set (w3 := (fetch_season_totals.sync remote script_dir "season_totals_leverage.csv" _ _ _ w2).2) in *.
  destruct (sync_effects remote script_dir "season_totals_playoffs_leverage.csv" "Playoffs"
              true year w3) as (Hs4 & (ps4 & Hw4 & Hp4) & Hf4).
  set (w4 := (fetch_season_totals.sync remote script_dir "season_totals_playoffs_leverage.csv" _ _ _ w3).2) in *.
  split; [lia|]. split.
  - exists (ps1 ++ ps2 ++ ps3 ++ ps4). split.
    + rewrite Hw4, Hw3, Hw2, Hw1. by rewrite <- !app_assoc.
    + apply (sublist_app _ [_] _ [_; _; _]); [done|].
      apply (sublist_app _ [_] _ [_; _]); [done|].
      by apply (sublist_app _ [_] _ [_]).
  - intros p Hp. rewrite !not_elem_of_cons in Hp.
    destruct Hp as (? & ? & ? & ? & _).
    rewrite Hf4, Hf3, Hf2, Hf1; done.
Qed.

Section SeasonHistory.
Import fetch_season_totals.
Variable remote : nat → Request → Reply Payload.
Variable script_dir : string.
Implicit Types (w : World (list Row)).

Lemma keeps_other_years_trans year_ p w1 w2 w3 :
  keeps_other_years year_ p w1 w2 → keeps_other_years year_ p w2 w3 →
  keeps_other_years year_ p w1 w3.
Proof.
  intros H12 H23 ex Hex. destruct (H12 ex Hex) as (t & Ht & Hk).
  destruct (H23 t Ht) as (t' & Ht' & Hk'). exists t'. split; [done|].
  intros y Hy. by rewrite Hk', Hk.
Qed.

Lemma sync_keeps_other_years file st lev year_ p w :
  keeps_other_years year_ p w (sync remote script_dir file st lev year_ w).2.
Proof.
  intros ex Hex.
  destruct (fetch_totals_run remote year_ st lev w)
    as (data & w1 & Hrun & Hf & _ & _ & _ & _ & Hrow).
  unfold sync, mbind at 1, M_bind at 1. rewrite Hrun.
  destruct (decide (data = [])) as [->|Hne].
  - cbn. exists ex. by rewrite Hf.
  - destruct (Hrow Hne) as [row ->].
    unfold mbind, M_bind. rewrite update_csv_run by (right; done). cbn.
    destruct (decide (p = DATA_DIR script_dir +:+ "/" +:+ file)) as [->|Hp].
    + rewrite lookup_insert_eq. eexists. split; [done|]. intros y Hy.
      rewrite merged_keys, Hf, Hex. cbn. rewrite list_elem_of_singleton. split.
      * intros [?|(_ & ex' & [= <-] & ?)]; done.
      * intros Hin. right. eauto.
    + rewrite lookup_insert_ne, Hf by done. eauto.
Qed.
End SeasonHistory.

(** X7.  A run of the season-totals [main] loses no year: a file that
    existed before the run exists after it, with a row for every year other
    than the target year that it had before, and for no other such year. *)
Theorem season_main_keeps_history
    (remote : nat → Request → Reply fetch_season_totals.Payload)
    (script_dir : string) (arg_year : option Z) (now_year now_month : Z)
    (w : World (list fetch_season_totals.Row))
    (path : string) (existing : list fetch_season_totals.Row) :
  files w !! path = Some existing →
  ∃ t,
    files (fetch_season_totals.main remote script_dir arg_year now_year now_month w).2
      !! path = Some t
    ∧ ∀ y, y ≠ fetch_season_totals.target_year arg_year now_year now_month →
           (y ∈ fetch_season_totals.year <$> t
            ↔ y ∈ fetch_season_totals.year <$> existing).
Proof.
  intros Hex. rewrite season_main_run. cbn [snd].
  refine (keeps_other_years_trans _ _ _ _ _
            (sync_keeps_other_years remote script_dir _ _ _ _ _ _)
            (keeps_other_years_trans _ _ _ _ _
               (sync_keeps_other_years remote script_dir _ _ _ _ _ _)
               (keeps_other_years_trans _ _ _ _ _
                  (sync_keeps_other_years remote script_dir _ _ _ _ _ _)
                  (sync_keeps_other_years remote script_dir _ _ _ _ _ _)))
            existing Hex).
Qed.

Lemma season_main_keeps_history_witness :
  files ExtraSamples.disk !! "./data/season_totals.csv" = Some Samples.season_totals_csv
  ∧ ∃ t,
      files (fetch_season_totals.main ExtraSamples.third_time "." (Some 2026%Z) 2026 11
               ExtraSamples.disk).2 !! "./data/season_totals.csv" = Some t
      ∧ ∀ y, y ≠ fetch_season_totals.target_year (Some 2026%Z) 2026 11 →
             (y ∈ fetch_season_totals.year <$> t
              ↔ y ∈ fetch_season_totals.year <$> Samples.season_totals_csv).
Proof.
  assert (H : files ExtraSamples.disk !! "./data/season_totals.csv"
              = Some Samples.season_totals_csv) by reflexivity.
  split; [exact H|].
  exact (season_main_keeps_history ExtraSamples.third_time "." (Some 2026%Z) 2026 11
           ExtraSamples.disk "./data/season_totals.csv" Samples.season_totals_csv H).
Defined.

(* ------------------------------------------------------------------ *)
(** ** Further properties: the on-off fetch and run                    *)
(* ------------------------------------------------------------------ *)

Section OnOffMore.
Import fetch_onoff.

Lemma output_dir_filepath_inj y y' t t' opp opp' lev lev' :
  filepath y t opp lev = filepath y' t' opp' lev' →
  y = y' ∧ t = t' ∧ opp = opp' ∧ lev = lev'.
Proof.
  unfold filepath, output_dir. rewrite !append_assoc.
  intros H. apply String.app_inj in H.
  apply numeric_prefix_inj in H as [Hy H]; [|apply all_numeric_str..|done|done].
  apply str_inj in Hy as ->. split; [done|].
  apply String.app_inj in H. by apply get_filename_inj.
Qed.

Lemma Sorted_le_NoDup_lt (l : list Z) :
  Sorted Z.le l → NoDup l → StronglySorted Z.lt l.
Proof.
  intros Hs%Sorted_StronglySorted; [|intros ???; lia].
  induction Hs as [|x l Hs IH Hall]; intros Hnd; [constructor|].
  apply NoDup_cons in Hnd as [Hnin Hnd]. constructor; [by apply IH|].
  rewrite Forall_forall in Hall |- *. intros y Hy.
  specialize (Hall y Hy). assert (x ≠ y) by (by intros ->). lia.
Qed.

Lemma has_column_set_column_ne c c' v (df : list (gmap string Cell)) :
  c ≠ c' → has_column c (set_column c' v df) = has_column c df.
Proof.
  intros Hne. unfold has_column, set_column. induction df as [|row df IH]; [done|].
  cbn. rewrite IH. f_equal. apply bool_decide_ext. by rewrite lookup_insert_ne.
Qed.
End OnOffMore.

(** X8.  The file of a unit tells the unit: two units have the same path
    exactly when they have the same year, team, side and leverage flag, and
    the same file name exactly when team, side and flag agree. *)
Theorem unit_file_names_distinct
    (y y' t t' : Z) (opp opp' lev lev' : bool) :
  (fetch_onoff.get_filename t opp lev = fetch_onoff.get_filename t' opp' lev'
   ↔ t = t' ∧ opp = opp' ∧ lev = lev')
  ∧ (fetch_onoff.filepath y t opp lev = fetch_onoff.filepath y' t' opp' lev'
     ↔ y = y' ∧ t = t' ∧ opp = opp' ∧ lev = lev').
Proof.
  split; (split; [|by intros; destruct_and!; subst]).
  - apply get_filename_inj.
  - apply output_dir_filepath_inj.
Qed.

Lemma fetch_team_ids_elem (index_master : list fetch_onoff.IndexRow) (year_ t : Z) :
  t ∈ fetch_onoff.fetch_team_ids index_master year_
  ↔ ∃ r, r ∈ index_master ∧ on_roster year_ r ∧ fetch_onoff.team_id r = t.
Proof.
  unfold fetch_onoff.fetch_team_ids, fetch_onoff.sorted, fetch_onoff.unique.
  cbv zeta. rewrite merge_sort_Permutation.
  rewrite (proj2 (unique_from_spec _ _)), list_elem_of_fmap.
  setoid_rewrite (proj2 (unique_from_spec _ _)).
  setoid_rewrite list_elem_of_filter. setoid_rewrite list_elem_of_filter.
  setoid_rewrite list_elem_of_filter. unfold on_roster. split.
  - intros [(r & -> & (Hy & Ht & Hna & Hin) & _) _]. eauto 10.
  - intros (r & Hin & (Hna & Ht & Hy) & <-). split; [|apply not_elem_of_nil].
    exists r. split; [done|]. split; [done|apply not_elem_of_nil].
Qed.

(** X9.  [fetch_team_ids] returns, in strictly ascending order and each
    once, exactly the team ids of the index rows of the given year that have
    no empty cell and are not the "TOT" pseudo-team. *)
Theorem fetch_team_ids_roster
    (index_master : list fetch_onoff.IndexRow) (year_ : Z) :
  let team_ids := fetch_onoff.fetch_team_ids index_master year_ in
  StronglySorted Z.lt team_ids
  ∧ NoDup team_ids
  ∧ ∀ t, t ∈ team_ids
         ↔ ∃ r, r ∈ index_master ∧ on_roster year_ r ∧ fetch_onoff.team_id r = t.
Proof.
  cbv zeta.
  pose proof (fetch_team_ids_NoDup index_master year_) as Hnd.
  split; [|split; [done|apply fetch_team_ids_elem]].
  apply Sorted_le_NoDup_lt; [|done].
  unfold fetch_onoff.fetch_team_ids, fetch_onoff.sorted. cbv zeta.
  apply (Sorted_merge_sort Z.le).
Qed.

(** X10.  Tagging keeps the number and the order of the rows; in every row
    it sets the four identity columns to the unit's values, over whatever
    the API sent under these names, gives "Corner3FGM" the value 0 when no
    row of the table has that column and leaves it alone otherwise, and
    keeps every other cell. *)
Theorem tag_frame_rows
    (year_ : Z) (season : string) (team_id : Z) (opp : bool)
    (df : list (gmap string fetch_onoff.Cell)) :
  Forall2 (tagged_row year_ season team_id opp
             (fetch_onoff.has_column "Corner3FGM" df))
    df (fetch_onoff.tag_frame year_ season team_id opp df).
Proof.
  unfold fetch_onoff.tag_frame. cbv zeta.
  rewrite !has_column_set_column_ne by done.
  destruct (fetch_onoff.has_column "Corner3FGM" df);
    unfold fetch_onoff.set_column; rewrite <- !list_fmap_compose;
    apply Forall2_fmap_r, Forall_Forall2_diag, Forall_forall; intros row _; cbn;
    unfold tagged_row;
    repeat (split; [by simplify_map_eq|]);
    intros c Hc; rewrite !not_elem_of_cons in Hc; destruct_and!;
    by simplify_map_eq.
Qed.

Section RetryMore.
Import fetch_onoff.
Variable remote : nat → Request → Reply Payload.
Implicit Types (w : World (list (gmap string Cell))) (acc : Block).

Lemma wowy_attempts_trace_S r n :
  (0 < n)%nat →
  wowy_attempts_trace r (S n) = [ERequest r; ESleep RETRY_DELAY] ++ wowy_attempts_trace r n.
Proof.
  intros Hn. unfold wowy_attempts_trace.
  replace (S n - 1)%nat with (S (n - 1)) by lia. reflexivity.
Qed.

Lemma retry_loop_trace team_id season opp lev fuel : ∀ attempts w,
  (0 ≤ attempts < MAX_RETRIES)%Z →
  (Z.to_nat (MAX_RETRIES - attempts) < fuel)%nat →
  ∃ r w',
    retry_loop remote fuel team_id season opp lev attempts None w = (Some r, w')
    ∧ (sent w < sent w')%nat
    ∧ trace w'
      = trace w ++ wowy_attempts_trace (wowy_request team_id season opp lev)
                     (sent w' - sent w).
Proof.
  induction fuel as [|fuel IH]; intros attempts w Ha Hfuel; [lia|].
  rewrite retry_loop_step by lia. cbn zeta.
  destruct (read_wowy _) as [e|df].
  - destruct (decide (attempts + 1 = MAX_RETRIES)%Z) as [Heq|Hne].
    + rewrite Heq. replace (MAX_RETRIES <? MAX_RETRIES)%Z with false by done.
      rewrite retry_loop_exhausted. eexists _, _. split; [reflexivity|]. cbn.
      split; [lia|]. by replace (S (sent w) - sent w)%nat with 1%nat by lia.
    + replace (attempts + 1 <? MAX_RETRIES)%Z with true
        by (symmetry; apply Z.ltb_lt; lia).
      match goal with |- context [retry_loop _ _ _ _ _ _ _ _ ?w1] =>
        destruct (IH (attempts + 1)%Z w1) as (r & w' & Hrun & Hsent & Htr)
      end; [lia|lia|]. cbn [sent files trace] in *.
      exists r, w'. split; [exact Hrun|]. split; [lia|]. rewrite Htr.
      replace (sent w' - sent w)%nat with (S (sent w' - S (sent w))) by lia.
      rewrite wowy_attempts_trace_S by lia. by rewrite <- !app_assoc.
  - eexists _, _. split; [reflexivity|]. cbn. split; [lia|].
    by replace (S (sent w) - sent w)%nat with 1%nat by lia.
Qed.

(** The loop under replies that fail [j] times and then read as [df]. *)
Lemma retry_loop_first_success team_id season opp lev df j w :
  (Z.of_nat j < MAX_RETRIES)%Z →
  (∀ i, (i < j)%nat →
        ∃ e, read_wowy (remote (sent w + i) (wowy_request team_id season opp lev)) = inl e) →
  read_wowy (remote (sent w + j) (wowy_request team_id season opp lev)) = inr df →
  ∃ w',
    retry_loop remote (S (Z.to_nat MAX_RETRIES)) team_id season opp lev 0 None w
    = (Some (Z.of_nat j, Some df), w')
    ∧ sent w' = (sent w + j + 1)%nat.
Proof.
  intros Hj Hfail Hok.
  destruct (retry_loop_run remote team_id season opp lev (S (Z.to_nat MAX_RETRIES)) 0 w)
    as (a' & success & w' & Hrun & _ & _ & Hle & Hfails & Hend); [done|cbn; lia|].
  rewrite Z.sub_0_r in Hfails.
  assert (Ha' : a' = Z.of_nat j).
  { destruct (decide (Z.to_nat a' < j)%nat) as [Hlt|Hge].
    - destruct success as [df'|].
      + destruct Hend as (_ & Hsent & Hread & _).
        rewrite Z.sub_0_r in Hsent.
        replace (sent w' - 1)%nat with (sent w + Z.to_nat a')%nat in Hread by lia.
        destruct (Hfail (Z.to_nat a') Hlt) as [e He]. congruence.
      + destruct Hend as (-> & _). lia.
    - destruct (decide (j < Z.to_nat a')%nat) as [Hgt|Hle'].
      + destruct (Hfails j Hgt) as [e He]. congruence.
      + lia. }
  subst a'. destruct success as [df'|].
  - destruct Hend as (_ & Hsent & Hread & _). rewrite Z.sub_0_r, Nat2Z.id in Hsent.
    replace (sent w' - 1)%nat with (sent w + j)%nat in Hread by lia.
    assert (df' = df) as -> by congruence. eauto.
  - destruct Hend as (Heq & _). lia.
Qed.

(** The loop under [MAX_RETRIES] failing replies. *)
Lemma retry_loop_all_fail team_id season opp lev w :
  (∀ i, (i < Z.to_nat MAX_RETRIES)%nat →
        ∃ e, read_wowy (remote (sent w + i) (wowy_request team_id season opp lev)) = inl e) →
  ∃ w',
    retry_loop remote (S (Z.to_nat MAX_RETRIES)) team_id season opp lev 0 None w
    = (Some (MAX_RETRIES, None), w')
    ∧ sent w' = (sent w + Z.to_nat MAX_RETRIES)%nat.
Proof.
  intros Hfail.
  destruct (retry_loop_run remote team_id season opp lev (S (Z.to_nat MAX_RETRIES)) 0 w)
    as (a' & success & w' & Hrun & _ & _ & Hle & Hfails & Hend); [done|cbn; lia|].
  destruct success as [df'|].
  - destruct Hend as (Hlt & Hsent & Hread & _). rewrite Z.sub_0_r in Hsent.
    replace (sent w' - 1)%nat with (sent w + Z.to_nat a')%nat in Hread by lia.
    destruct (Hfail (Z.to_nat a')) as [e He]; [lia|]. congruence.
  - destruct Hend as (-> & Hsent & _). rewrite Z.sub_0_r in Hsent. eauto.
Qed.
End RetryMore.

Lemma retry_loop_trace_files
    (remote : nat → Request → Reply fetch_onoff.Payload)
    (team_id : Z) (season : string) (opp leverage : bool)
    (w : World (list (gmap string fetch_onoff.Cell))) :
  ∃ r w',
    fetch_onoff.retry_loop remote (S (Z.to_nat fetch_onoff.MAX_RETRIES))
      team_id season opp leverage 0 None w = (Some r, w')
    ∧ (sent w < sent w')%nat
    ∧ trace w'
      = trace w
        ++ wowy_attempts_trace (fetch_onoff.wowy_request team_id season opp leverage)
             (sent w' - sent w)
    ∧ files w' = files w.
Proof.
  destruct (retry_loop_trace remote team_id season opp leverage
              (S (Z.to_nat fetch_onoff.MAX_RETRIES)) 0 w)
    as (r & w' & Hrun & Hsent & Htr); [done|cbn; lia|].
  destruct (retry_loop_run remote team_id season opp leverage
              (S (Z.to_nat fetch_onoff.MAX_RETRIES)) 0 w)
    as (a' & success & w'' & Hrun' & Hf & _); [done|cbn; lia|].
  rewrite Hrun in Hrun'. injection Hrun' as Hr <-.
  exists r, w'. split; [exact Hrun|]. split; [done|]. split; [done|exact Hf].
Qed.

(** X11.  The retry loop of a unit sends the same request every time, with
    [RETRY_DELAY] between two attempts and nothing before the first or
    after the last, and writes no file. *)
Theorem retry_loop_trace_shape
    (remote : nat → Request → Reply fetch_onoff.Payload)
    (team_id : Z) (season : string) (opp leverage : bool)
    (w : World (list (gmap string fetch_onoff.Cell))) :
  ∃ r w',
    fetch_onoff.retry_loop remote (S (Z.to_nat fetch_onoff.MAX_RETRIES))
      team_id season opp leverage 0 None w = (Some r, w')
    ∧ (sent w < sent w')%nat
    ∧ trace w'
      = trace w
        ++ wowy_attempts_trace (fetch_onoff.wowy_request team_id season opp leverage)
             (sent w' - sent w)
    ∧ files w' = files w.
Proof. apply retry_loop_trace_files. Qed.

(** X12.  A unit whose fetch succeeds at attempt [j + 1]: the tagged table
    goes on the list of its side and not on the fail list; it is written to
    the unit's file when it has more than two rows and to no file
    otherwise; the effects are the [j + 1] attempts, the write if any, and
    the pacing sleep. *)
Theorem pull_unit_success
    (remote : nat → Request → Reply fetch_onoff.Payload)
    (year_ : Z) (leverage opp : bool) (team_id : Z) (acc : fetch_onoff.Block)
    (w : World (list (gmap string fetch_onoff.Cell)))
    (j : nat) (fetched : list (gmap string fetch_onoff.Cell)) :
  let request := fetch_onoff.wowy_request team_id (season_label year_) opp leverage in
  let df := fetch_onoff.tag_frame year_ (season_label year_) team_id opp fetched in
  let path := fetch_onoff.filepath year_ team_id opp leverage in
  (Z.of_nat j < fetch_onoff.MAX_RETRIES)%Z →
  (∀ i, (i < j)%nat → ∃ e, fetch_onoff.read_wowy (remote (sent w + i) request) = inl e) →
  fetch_onoff.read_wowy (remote (sent w + j) request) = inr fetched →
  ∃ acc' w',
    fetch_onoff.pull_unit remote year_ leverage opp team_id acc w = (Some acc', w')
    ∧ frames_of opp acc' = frames_of opp acc ++ [df]
    ∧ frames_of (negb opp) acc' = frames_of (negb opp) acc
    ∧ fetch_onoff.fail_list acc' = fetch_onoff.fail_list acc
    ∧ sent w' = (sent w + j + 1)%nat
    ∧ files w' = (if decide (2 < length fetched) then <[path := df]> (files w)
                  else files w)
    ∧ trace w'
      = trace w ++ wowy_attempts_trace request (j + 1)
        ++ (if decide (2 < length fetched) then [EWrite path] else [])
        ++ [ESleep fetch_onoff.SLEEP_BETWEEN].
Proof.
  intros request df path Hj Hfail Hok.
  destruct (retry_loop_first_success remote team_id (season_label year_) opp leverage
              fetched j w Hj Hfail Hok) as (w1 & Hrun & Hsent).
  destruct (retry_loop_trace_files remote team_id (season_label year_) opp leverage w)
    as (r & w1' & Hrun' & _ & Htr & Hf).
  rewrite Hrun in Hrun'. injection Hrun' as <- <-.
  replace (sent w1 - sent w)%nat with (j + 1)%nat in Htr by lia.
  unfold fetch_onoff.pull_unit. cbv zeta.
  unfold mbind at 1, M_bind at 1. rewrite Hrun. fold df path.
  assert (Hlen : length df = length fetched) by apply length_tag_frame.
  rewrite Hlen.
  destruct (decide (2 < length fetched)) as [Hbig|Hsmall];
    eexists _, _; (split; [reflexivity|]); cbn;
    rewrite ?Hf, ?Htr, <- ?app_assoc; by destruct opp.
Qed.

(** X13.  A unit whose five attempts all fail: the team and its side go on
    the fail list, no table is collected, no file is written, and the
    effects are the five attempts alone. *)
Theorem pull_unit_failure
    (remote : nat → Request → Reply fetch_onoff.Payload)
    (year_ : Z) (leverage opp : bool) (team_id : Z) (acc : fetch_onoff.Block)
    (w : World (list (gmap string fetch_onoff.Cell))) :
  let request := fetch_onoff.wowy_request team_id (season_label year_) opp leverage in
  (∀ i, (i < Z.to_nat fetch_onoff.MAX_RETRIES)%nat →
        ∃ e, fetch_onoff.read_wowy (remote (sent w + i) request) = inl e) →
  ∃ acc' w',
    fetch_onoff.pull_unit remote year_ leverage opp team_id acc w = (Some acc', w')
    ∧ fetch_onoff.team_frames acc' = fetch_onoff.team_frames acc
    ∧ fetch_onoff.vs_frames acc' = fetch_onoff.vs_frames acc
    ∧ fetch_onoff.fail_list acc'
      = fetch_onoff.fail_list acc ++ [(team_id, if opp then "Opponent" else "Team")]
    ∧ sent w' = (sent w + 5)%nat
    ∧ files w' = files w
    ∧ trace w' = trace w ++ wowy_attempts_trace request 5.
Proof.
  intros request Hfail.
  destruct (retry_loop_all_fail remote team_id (season_label year_) opp leverage w Hfail)
    as (w1 & Hrun & Hsent).
  destruct (retry_loop_trace_files remote team_id (season_label year_) opp leverage w)
    as (r & w1' & Hrun' & _ & Htr & Hf).
  rewrite Hrun in Hrun'. injection Hrun' as <- <-.
  change (Z.to_nat fetch_onoff.MAX_RETRIES) with 5%nat in Hsent.
  replace (sent w1 - sent w)%nat with 5%nat in Htr by lia.
  unfold fetch_onoff.pull_unit. cbv zeta.
  unfold mbind at 1, M_bind at 1. rewrite Hrun.
  eexists _, _. split; [reflexivity|]. cbn. done.
Qed.

Section BlockMore.
Import fetch_onoff.
Variable remote : nat → Request → Reply Payload.
Implicit Types (w : World (list (gmap string Cell))) (acc : Block).

Lemma pull_unit_effects year_ lev opp t acc w :
  ∃ acc' w' new fails ps,
    pull_unit remote year_ lev opp t acc w = (Some acc', w')
    ∧ frames_of opp acc' = frames_of opp acc ++ new
    ∧ frames_of (negb opp) acc' = frames_of (negb opp) acc
    ∧ fail_list acc' = fail_list acc ++ fails
    ∧ length new + length fails = 1
    ∧ fails `sublist_of` [(t, if opp then "Opponent" else "Team")]
    ∧ (sent w + 1 ≤ sent w' ≤ sent w + 5)%nat
    ∧ written (trace w') = written (trace w) ++ ps
    ∧ ps `sublist_of` [filepath year_ t opp lev]
    ∧ keeps_files w w'
    ∧ (∀ p, p ∉ [filepath year_ t opp lev] → files w' !! p = files w !! p).
Proof.
  destruct (retry_loop_run remote t (season_label year_) opp lev
              (S (Z.to_nat MAX_RETRIES)) 0 w)
    as (a' & success & w1 & Hrun & Hf & Hwr & Hle & _ & Hend); [done|cbn; lia|].
  unfold pull_unit. cbv zeta. unfold mbind at 1, M_bind at 1. rewrite Hrun.
  unfold MAX_RETRIES in *. destruct success as [df|].
  - destruct Hend as (Hlt & Hsent & _).
    set (df' := tag_frame _ _ _ _ df).
    destruct (decide (2 < length df')) as [Hlen|Hlen].
    + eexists _, _, [df'], [], [_]. split; [reflexivity|]. cbn.
      rewrite app_nil_r, written_sleep, written_write, Hwr.
      split; [by destruct opp|]. split; [by destruct opp|]. split; [by destruct opp|].
      split; [done|]. split; [apply sublist_nil_l|]. split; [lia|].
      split; [done|]. split; [done|]. split.
      * intros p Hp. cbn. destruct (decide (p = filepath year_ t opp lev)) as [->|Hne].
        -- rewrite lookup_insert_eq. eauto.
        -- by rewrite lookup_insert_ne, Hf.
      * intros p [Hp _]%not_elem_of_cons. by rewrite lookup_insert_ne, Hf.
    + eexists _, _, [df'], [], []. split; [reflexivity|]. cbn.
      rewrite !app_nil_r, written_sleep, Hwr.
      split; [by destruct opp|]. split; [by destruct opp|]. split; [by destruct opp|].
      split; [done|]. split; [apply sublist_nil_l|]. split; [lia|].
      split; [done|]. split; [apply sublist_nil_l|]. split; [|by rewrite Hf].
      intros p Hp. cbn. by rewrite Hf.
  - destruct Hend as (-> & Hsent & _). cbn in Hsent.
    eexists _, _, [], [_], []. split; [reflexivity|]. cbn.
    rewrite !app_nil_r, Hwr.
    split; [by destruct opp|]. split; [by destruct opp|]. split; [done|].
    split; [done|]. split; [done|]. split; [lia|].
    split; [done|]. split; [apply sublist_nil_l|]. split; [|by rewrite Hf].
    intros p Hp. cbn. by rewrite Hf.
Qed.

Lemma for_team_ids_effects year_ lev opp team_ids : ∀ acc w,
  ∃ acc' w' new fails ps,
    for_team_ids remote year_ lev opp team_ids acc w = (Some acc', w')
    ∧ frames_of opp acc' = frames_of opp acc ++ new
    ∧ frames_of (negb opp) acc' = frames_of (negb opp) acc
    ∧ fail_list acc' = fail_list acc ++ fails
    ∧ length new + length fails = length team_ids
    ∧ fails `sublist_of` ((λ t, (t, if opp then "Opponent" else "Team")) <$> team_ids)
    ∧ (sent w + length team_ids ≤ sent w' ≤ sent w + 5 * length team_ids)%nat
    ∧ written (trace w') = written (trace w) ++ ps
    ∧ ps `sublist_of` ((λ t, filepath year_ t opp lev) <$> team_ids)
    ∧ keeps_files w w'
    ∧ (∀ p, p ∉ (λ t, filepath year_ t opp lev) <$> team_ids →
            files w' !! p = files w !! p).
Proof.
  induction team_ids as [|t ts IH]; intros acc w.
  - exists acc, w, [], [], []. cbn. rewrite !app_nil_r.
    repeat split; try done; try lia. by intros p Hp.
  - destruct (pull_unit_effects year_ lev opp t acc w)
      as (acc1 & w1 & new1 & fails1 & ps1 & Hrun1 & Hnew1 & Hoth1 & Hfail1 & Hlen1
          & Hsub1 & Hsent1 & Hwr1 & Hps1 & Hkeep1 & Hfr1).
    destruct (IH acc1 w1)
      as (acc' & w' & new & fails & ps & Hrun & Hnew & Hoth & Hfail & Hlen
          & Hsub & Hsent & Hwr & Hps & Hkeep & Hfr).
    cbn [for_team_ids]. unfold mbind at 1, M_bind at 1. rewrite Hrun1.
    exists acc', w', (new1 ++ new), (fails1 ++ fails), (ps1 ++ ps).
    rewrite !fmap_cons.
    split; [exact Hrun|]. split; [by rewrite Hnew, Hnew1, app_assoc|].
    split; [congruence|]. split; [by rewrite Hfail, Hfail1, app_assoc|].
    split; [rewrite !length_app; cbn; lia|].
    split; [apply (sublist_app _ [_]); [exact Hsub1|exact Hsub]|].
    split; [cbn; lia|].
    split; [by rewrite Hwr, Hwr1, app_assoc|].
    split; [apply (sublist_app _ [_]); [exact Hps1|exact Hps]|].
    split; [intros p Hp; auto|].
    intros p Hp. rewrite not_elem_of_cons in Hp. destruct Hp as [Hne Hp].
    rewrite Hfr, Hfr1; [done| |done].
    apply not_elem_of_cons. split; [done|apply not_elem_of_nil].
Qed.

Lemma pull_block_effects team_ids year_ lev w :
  ∃ b w' ps,
    pull_block remote team_ids year_ lev w = (Some b, w')
    ∧ length (team_frames b) + length (vs_frames b) + length (fail_list b)
      = 2 * length team_ids
    ∧ fail_list b `sublist_of` unit_order team_ids
    ∧ (sent w + 2 * length team_ids ≤ sent w' ≤ sent w + 10 * length team_ids)%nat
    ∧ written (trace w') = written (trace w) ++ ps
    ∧ ps `sublist_of` block_paths year_ lev team_ids
    ∧ keeps_files w w'
    ∧ (∀ p, p ∉ block_paths year_ lev team_ids → files w' !! p = files w !! p).
Proof.
  unfold pull_block.
  destruct (for_team_ids_effects year_ lev false team_ids (mkBlock [] [] []) w)
    as (acc1 & w1 & new1 & fails1 & ps1 & Hrun1 & Hnew1 & Hoth1 & Hfail1 & Hlen1
        & Hsub1 & Hsent1 & Hwr1 & Hps1 & Hkeep1 & Hfr1).
  destruct (for_team_ids_effects year_ lev true team_ids acc1 w1)
    as (b & w' & new2 & fails2 & ps2 & Hrun2 & Hnew2 & Hoth2 & Hfail2 & Hlen2
        & Hsub2 & Hsent2 & Hwr2 & Hps2 & Hkeep2 & Hfr2).
  unfold mbind, M_bind. rewrite Hrun1. exists b, w', (ps1 ++ ps2).
  split; [exact Hrun2|]. cbn in Hnew1, Hoth1, Hfail1, Hnew2, Hoth2.
  split; [rewrite Hoth2, Hnew2, Hfail2, Hfail1, Hnew1, Hoth1, !length_app; cbn; lia|].
  split; [rewrite Hfail2, Hfail1; cbn; by apply sublist_app|].
  split; [lia|]. split; [by rewrite Hwr2, Hwr1, app_assoc|].
  split; [by apply sublist_app|]. split; [intros p Hp; auto|].
  intros p Hp. unfold block_paths in Hp. rewrite elem_of_app in Hp.
  rewrite Hfr2, Hfr1; tauto.
Qed.
End BlockMore.

(** X14.  A block never stops early.  Every unit of the roster, on both
    sides, ends up either as a table on the list of its side or as an entry
    of the fail list, and the fail list names the failed units in the order
    the block took them: teams in roster order, all "Team" units before all
    "Opponent" units. *)
Theorem pull_block_accounts_for_every_unit
    (remote : nat → Request → Reply fetch_onoff.Payload)
    (team_ids : list Z) (year_ : Z) (leverage : bool)
    (w : World (list (gmap string fetch_onoff.Cell))) :
  ∃ b w',
    fetch_onoff.pull_block remote team_ids year_ leverage w = (Some b, w')
    ∧ length (fetch_onoff.team_frames b) + length (fetch_onoff.vs_frames b)
      + length (fetch_onoff.fail_list b) = 2 * length team_ids
    ∧ fetch_onoff.fail_list b `sublist_of` unit_order team_ids.
Proof.
  destruct (pull_block_effects remote team_ids year_ leverage w)
    as (b & w' & ps & Hrun & Hlen & Hsub & _). eauto.
Qed.

(** X15.  A block sends at least one and at most five requests per unit,
    writes only files of its own units, each at most once and in unit order,
    deletes no file and leaves every other file as it was. *)
Theorem pull_block_effects_bounded
    (remote : nat → Request → Reply fetch_onoff.Payload)
    (team_ids : list Z) (year_ : Z) (leverage : bool)
    (w : World (list (gmap string fetch_onoff.Cell))) :
  ∃ b w' ps,
    fetch_onoff.pull_block remote team_ids year_ leverage w = (Some b, w')
    ∧ (sent w + 2 * length team_ids ≤ sent w' ≤ sent w + 10 * length team_ids)%nat
    ∧ written (trace w') = written (trace w) ++ ps
    ∧ ps `sublist_of` block_paths year_ leverage team_ids
    ∧ keeps_files w w'
    ∧ (∀ p, p ∉ block_paths year_ leverage team_ids → files w' !! p = files w !! p).
Proof.
  destruct (pull_block_effects remote team_ids year_ leverage w)
    as (b & w' & ps & Hrun & _ & _ & Hrest). eauto.
Qed.

Lemma season_label_checked :
  forallb season_label_ok (range 1000 10000) = true.
Proof. vm_compute. reflexivity. Qed.

(** X19.  For a four-digit year the season label is the year before, a
    dash and the two last digits of the year, zero-padded: 2000 gives
    "1999-00" and 2010 gives "2009-10". *)
Theorem season_label_four_digit_year (year : Z) :
  (1000 ≤ year ≤ 9999)%Z →
  season_label year = str (year - 1) +:+ "-" +:+ two_digits (year mod 100).
Proof.
  intros Hy. pose proof season_label_checked as Hall.
  rewrite forallb_forall in Hall.
  apply String.eqb_eq, Hall, list_elem_of_In. unfold range.
  apply list_elem_of_fmap. exists (Z.to_nat (year - 1000)). split; [lia|].
  apply elem_of_seq. lia.
Qed.

Lemma season_label_four_digit_year_witness :
  (1000 ≤ 2000 ≤ 9999)%Z
  ∧ season_label 2000 = str (2000 - 1) +:+ "-" +:+ two_digits (2000 mod 100).
Proof.
  assert (H : (1000 ≤ 2000 ≤ 9999)%Z) by lia.
  split; [exact H|]. exact (season_label_four_digit_year 2000 H).
Defined.

Section MainMore.
Import fetch_onoff.
Variable remote : nat → Request → Reply Payload.
Implicit Types (w : World (list (gmap string Cell))).

Lemma fetch_team_ids_nil index_master year_ :
  Forall (λ r, ¬ on_roster year_ r) index_master →
  fetch_team_ids index_master year_ = [].
Proof.
  intros Hall. destruct (fetch_team_ids index_master year_) as [|t l] eqn:Hids; [done|].
  assert (Hin : t ∈ fetch_team_ids index_master year_) by (rewrite Hids; left).
  apply fetch_team_ids_elem in Hin as (r & Hr & Hon & _).
  rewrite Forall_forall in Hall. by destruct (Hall r Hr).
Qed.

Lemma onoff_main_effects index_master year_ w :
  let team_ids := fetch_team_ids index_master REFERENCE_YEAR in
  ∃ report w' ps,
    main remote (inr index_master) year_ w = (Some (inr report), w')
    ∧ all_fails report `sublist_of` unit_order team_ids ++ unit_order team_ids
    ∧ (sent w + 4 * length team_ids ≤ sent w' ≤ sent w + 20 * length team_ids)%nat
    ∧ written (trace w') = written (trace w) ++ ps
    ∧ ps `sublist_of` block_paths year_ true team_ids ++ block_paths year_ false team_ids
    ∧ keeps_files w w'
    ∧ (∀ p, p ∉ block_paths year_ true team_ids ++ block_paths year_ false team_ids →
            files w' !! p = files w !! p).
Proof.
  intros team_ids.
  destruct (pull_block_effects remote team_ids year_ true w)
    as (b1 & w1 & ps1 & Hrun1 & _ & Hsub1 & Hsent1 & Hwr1 & Hps1 & Hkeep1 & Hfr1).
  destruct (pull_block_effects remote team_ids year_ false w1)
    as (b2 & w' & ps2 & Hrun2 & _ & Hsub2 & Hsent2 & Hwr2 & Hps2 & Hkeep2 & Hfr2).
  unfold main. fold team_ids. cbv zeta. unfold mbind, M_bind.
  rewrite Hrun1, Hrun2. eexists _, w', (ps1 ++ ps2). split; [reflexivity|]. cbn.
  split; [by apply sublist_app|]. split; [lia|].
  split; [by rewrite Hwr2, Hwr1, app_assoc|]. split; [by apply sublist_app|].
  split; [intros p Hp; auto|].
  intros p Hp. rewrite elem_of_app in Hp. rewrite Hfr2, Hfr1; tauto.
Qed.
End MainMore.

(** X16.  A run of the on-off [main].  When the roster cannot be fetched the
    run ends on that exception before anything is requested or written.
    Otherwise it runs the leverage block and then the non-leverage block
    over the same roster: between 4 and 20 requests per team; files written
    only for units of the roster, each at most once, the leverage files
    first; no file deleted, no other file changed; and the failures it
    reports are in the order the units were taken. *)
Theorem onoff_main_run_effects
    (remote : nat → Request → Reply fetch_onoff.Payload)
    (index_master : Exn + list fetch_onoff.IndexRow) (year_ : Z)
    (w : World (list (gmap string fetch_onoff.Cell))) :
  match index_master with
  | inl e => fetch_onoff.main remote (inl e) year_ w = (Some (inl e), w)
  | inr index =>
      let team_ids := fetch_onoff.fetch_team_ids index fetch_onoff.REFERENCE_YEAR in
      let paths := block_paths year_ true team_ids ++ block_paths year_ false team_ids in
      ∃ report w' ps,
        fetch_onoff.main remote (inr index) year_ w = (Some (inr report), w')
        ∧ fetch_onoff.all_fails report
          `sublist_of` unit_order team_ids ++ unit_order team_ids
        ∧ (sent w + 4 * length team_ids ≤ sent w'
           ≤ sent w + 20 * length team_ids)%nat
        ∧ written (trace w') = written (trace w) ++ ps
        ∧ ps `sublist_of` paths
        ∧ keeps_files w w'
        ∧ (∀ p, p ∉ paths → files w' !! p = files w !! p)
  end.
Proof.
  destruct index_master as [e|index]; [done|]. apply onoff_main_effects.
Qed.

(** X17.  An index with no row for the reference year (or only "TOT" rows
    and rows with an empty cell) gives an empty roster: the run requests
    nothing, writes nothing, reports no failure and ends with status 0. *)
Theorem onoff_main_empty_roster
    (remote : nat → Request → Reply fetch_onoff.Payload)
    (index_master : list fetch_onoff.IndexRow) (year_ : Z)
    (w : World (list (gmap string fetch_onoff.Cell))) :
  Forall (λ r, ¬ on_roster fetch_onoff.REFERENCE_YEAR r) index_master →
  fetch_onoff.main remote (inr index_master) year_ w
  = (Some (inr (fetch_onoff.mkReport (fetch_onoff.mkBlock [] [] [])
                  (fetch_onoff.mkBlock [] [] []) [] 0)), w).
Proof.
  intros Hall. unfold fetch_onoff.main.
  rewrite (fetch_team_ids_nil _ _ Hall). by destruct w.
Qed.

Lemma onoff_main_empty_roster_witness :
  Forall (λ r, ¬ on_roster fetch_onoff.REFERENCE_YEAR r)
    [fetch_onoff.mkIndexRow "TOT" 2025 0 false;
     fetch_onoff.mkIndexRow "BOS" 2024 1610612738 false]
  ∧ fetch_onoff.main OnOffSamples.two_rows
      (inr [fetch_onoff.mkIndexRow "TOT" 2025 0 false;
            fetch_onoff.mkIndexRow "BOS" 2024 1610612738 false]) 2026
      OnOffSamples.empty_disk
    = (Some (inr (fetch_onoff.mkReport (fetch_onoff.mkBlock [] [] [])
                    (fetch_onoff.mkBlock [] [] []) [] 0)), OnOffSamples.empty_disk).
Proof.
  assert (H : Forall (λ r, ¬ on_roster fetch_onoff.REFERENCE_YEAR r)
                [fetch_onoff.mkIndexRow "TOT" 2025 0 false;
                 fetch_onoff.mkIndexRow "BOS" 2024 1610612738 false]).
  { repeat constructor; intros (? & ? & ?); done. }
  split; [exact H|].
  exact (onoff_main_empty_roster OnOffSamples.two_rows _ 2026 OnOffSamples.empty_disk H).
Defined.

Section NoDoubleWrite.
Import fetch_onoff.

Lemma block_paths_NoDup year_ team_ids :
  NoDup team_ids →
  NoDup (block_paths year_ true team_ids ++ block_paths year_ false team_ids).
Proof.
  intros Hnd.
  assert (Hside : ∀ opp lev, NoDup ((λ t, filepath year_ t opp lev) <$> team_ids)).
  { intros opp lev. apply NoDup_fmap_2; [|done].
    intros t t' Heq. by apply filepath_inj in Heq as (? & _). }
  assert (Hdiff : ∀ opp lev opp' lev' p, (opp, lev) ≠ (opp', lev') →
            p ∈ (λ t, filepath year_ t opp lev) <$> team_ids →
            p ∈ (λ t, filepath year_ t opp' lev') <$> team_ids → False).
  { intros opp lev opp' lev' p Hne (t & -> & _)%list_elem_of_fmap
      (t' & Heq & _)%list_elem_of_fmap.
    apply filepath_inj in Heq as (_ & -> & ->). done. }
  unfold block_paths. rewrite !NoDup_app. repeat split; try apply Hside.
  - intros p Hp Hp'. by eapply (Hdiff false true true true).
  - intros p [Hp|Hp]%elem_of_app [Hp'|Hp']%elem_of_app.
    + by eapply (Hdiff false true false false).
    + by eapply (Hdiff false true true false).
    + by eapply (Hdiff true true false false).
    + by eapply (Hdiff true true true false).
  - intros p Hp Hp'. by eapply (Hdiff false false true false).
Qed.
End NoDoubleWrite.

(** X18.  In a run of the on-off [main] no file is written twice: the two
    blocks and the two sides write different files, and the roster has no
    team twice. *)
Theorem onoff_main_writes_each_file_once
    (remote : nat → Request → Reply fetch_onoff.Payload)
    (index_master : list fetch_onoff.IndexRow) (year_ : Z)
    (w : World (list (gmap string fetch_onoff.Cell))) :
  ∃ report w' ps,
    fetch_onoff.main remote (inr index_master) year_ w = (Some (inr report), w')
    ∧ written (trace w') = written (trace w) ++ ps
    ∧ NoDup ps.
Proof.
  destruct (onoff_main_effects remote index_master year_ w)
    as (report & w' & ps & Hrun & _ & _ & Hwr & Hps & _).
  exists report, w', ps. split; [done|]. split; [done|].
  eapply sublist_NoDup; [|exact Hps].
  apply block_paths_NoDup, fetch_team_ids_NoDup.
Qed.

(* ------------------------------------------------------------------ *)
(** ** Further properties at sample inputs                             *)
(* ------------------------------------------------------------------ *)

Lemma update_csv_last_row_per_key_witness :
  fetch_season_totals.update_csv "data/season_totals.csv" [Samples.fresh] 2026
    Samples.disk = (inr Samples.synced_table, Samples.synced)
  ∧ (∀ y,
       filter (λ r, fetch_season_totals.year r = y) Samples.synced_table
       = fetch_season_totals.derive_row
         <$> option_list
               (last (filter (λ r, fetch_season_totals.year r = y)
                        (fetch_season_totals.kept
                           (files Samples.disk !! "data/season_totals.csv") 2026
                         ++ [Samples.fresh]))))
    ∧ (∀ y,
         y ∈ fetch_season_totals.year <$> Samples.synced_table
         ↔ y ∈ fetch_season_totals.year <$> [Samples.fresh]
           ∨ (y ≠ 2026%Z ∧ ∃ existing,
                files Samples.disk !! "data/season_totals.csv" = Some existing
                ∧ y ∈ fetch_season_totals.year <$> existing))
    ∧ (2026%Z ∈ fetch_season_totals.year <$> Samples.synced_table
       ↔ 2026%Z ∈ fetch_season_totals.year <$> [Samples.fresh]).
Proof.
  assert (H : fetch_season_totals.update_csv "data/season_totals.csv" [Samples.fresh]
                2026 Samples.disk = (inr Samples.synced_table, Samples.synced))
    by (vm_compute; reflexivity).
  split; [exact H|].
  exact (update_csv_last_row_per_key _ _ _ _ _ _ H).
Defined.

Lemma update_csv_effects_witness :
  fetch_season_totals.update_csv "data/season_totals.csv" [Samples.fresh] 2026
    Samples.disk = (inr Samples.synced_table, Samples.synced)
  ∧ sent Samples.synced = sent Samples.disk
  ∧ trace Samples.synced = trace Samples.disk ++ [EWrite "data/season_totals.csv"]
  ∧ files Samples.synced
    = <["data/season_totals.csv" := Samples.synced_table]> (files Samples.disk)
  ∧ (∀ p, p ≠ "data/season_totals.csv" →
          files Samples.synced !! p = files Samples.disk !! p).
Proof.
  assert (H : fetch_season_totals.update_csv "data/season_totals.csv" [Samples.fresh]
                2026 Samples.disk = (inr Samples.synced_table, Samples.synced))
    by (vm_compute; reflexivity).
  split; [exact H|].
  exact (update_csv_effects "data/season_totals.csv" [Samples.fresh] 2026
           Samples.disk Samples.synced Samples.synced_table H).
Defined.

Lemma update_csv_derives_every_row_witness :
  fetch_season_totals.update_csv "data/season_totals.csv" [Samples.fresh] 2026
    Samples.disk = (inr Samples.synced_table, Samples.synced)
  ∧ Forall (λ r,
      fetch_season_totals.FTA_Rate r
      = (fetch_season_totals.FTA r
         / (fetch_season_totals.FG3A r + fetch_season_totals.FG2A r))%float
      ∧ fetch_season_totals.TOV_pct r
        = (100 * fetch_season_totals.Turnovers r
           / ((fetch_season_totals.FG3A r + fetch_season_totals.FG2A r)
              + 0.44 * fetch_season_totals.FTA r
              + fetch_season_totals.Turnovers r
              - fetch_season_totals.OffRebounds r))%float) Samples.synced_table.
Proof.
  assert (H : fetch_season_totals.update_csv "data/season_totals.csv" [Samples.fresh]
                2026 Samples.disk = (inr Samples.synced_table, Samples.synced))
    by (vm_compute; reflexivity).
  split; [exact H|].
  exact (update_csv_derives_every_row _ _ _ _ _ _ H).
Defined.

Lemma fetch_totals_first_success_witness :
  (2 < Z.to_nat fetch_season_totals.max_retries)%nat
  ∧ (∀ i, (i < 2)%nat →
          fetch_season_totals.attempt_fails ExtraSamples.third_time 2026
            "Regular Season" false (sent Samples.empty_disk + i))
  ∧ fetch_season_totals.read_totals 2026
      (ExtraSamples.third_time (sent Samples.empty_disk + 2)
         (fetch_season_totals.totals_request 2026 "Regular Season" false))
    = inr [Samples.fresh]
  ∧ ∃ w',
      fetch_season_totals.fetch_totals ExtraSamples.third_time 2026 "Regular Season"
        false Samples.empty_disk = (Some [Samples.fresh], w')
      ∧ sent w' = (sent Samples.empty_disk + 2 + 1)%nat
      ∧ files w' = files Samples.empty_disk
      ∧ length [Samples.fresh] = 1
      ∧ Forall (λ r, fetch_season_totals.year r = 2026%Z) [Samples.fresh].
Proof.
  assert (H1 : (2 < Z.to_nat fetch_season_totals.max_retries)%nat)
    by (vm_compute; lia).
  assert (H2 : ∀ i, (i < 2)%nat →
            fetch_season_totals.attempt_fails ExtraSamples.third_time 2026
              "Regular Season" false (sent Samples.empty_disk + i)).
  { intros [|[|i]] Hi; [by exists ConnectionError..|lia]. }
  assert (H3 : fetch_season_totals.read_totals 2026
                 (ExtraSamples.third_time (sent Samples.empty_disk + 2)
                    (fetch_season_totals.totals_request 2026 "Regular Season" false))
               = inr [Samples.fresh]) by reflexivity.
  split; [exact H1|]. split; [exact H2|]. split; [exact H3|].
  exact (fetch_totals_first_success ExtraSamples.third_time 2026 "Regular Season" false
           Samples.empty_disk 2 [Samples.fresh] H1 H2 H3).
Defined.

Lemma pull_unit_success_witness :
  let request := fetch_onoff.wowy_request 7 (season_label 2026) false true in
  let df := fetch_onoff.tag_frame 2026 (season_label 2026) 7 false
              ExtraSamples.three_combos in
  let path := fetch_onoff.filepath 2026 7 false true in
  let acc := fetch_onoff.mkBlock [] [] [] in
  (Z.of_nat 1 < fetch_onoff.MAX_RETRIES)%Z
  ∧ (∀ i, (i < 1)%nat →
          ∃ e, fetch_onoff.read_wowy
                 (ExtraSamples.second_time (sent OnOffSamples.empty_disk + i) request)
               = inl e)
  ∧ fetch_onoff.read_wowy
      (ExtraSamples.second_time (sent OnOffSamples.empty_disk + 1) request)
    = inr ExtraSamples.three_combos
  ∧ ∃ acc' w',
      fetch_onoff.pull_unit ExtraSamples.second_time 2026 true false 7 acc
        OnOffSamples.empty_disk = (Some acc', w')
      ∧ frames_of false acc' = frames_of false acc ++ [df]
      ∧ frames_of (negb false) acc' = frames_of (negb false) acc
      ∧ fetch_onoff.fail_list acc' = fetch_onoff.fail_list acc
      ∧ sent w' = (sent OnOffSamples.empty_disk + 1 + 1)%nat
      ∧ files w' = (if decide (2 < length ExtraSamples.three_combos)
                    then <[path := df]> (files OnOffSamples.empty_disk)
                    else files OnOffSamples.empty_disk)
      ∧ trace w'
        = trace OnOffSamples.empty_disk ++ wowy_attempts_trace request (1 + 1)
          ++ (if decide (2 < length ExtraSamples.three_combos)
              then [EWrite path] else [])
          ++ [ESleep fetch_onoff.SLEEP_BETWEEN].
Proof.
  cbv zeta.
  assert (H1 : (Z.of_nat 1 < fetch_onoff.MAX_RETRIES)%Z) by reflexivity.
  assert (H2 : ∀ i, (i < 1)%nat →
            ∃ e, fetch_onoff.read_wowy
                   (ExtraSamples.second_time (sent OnOffSamples.empty_disk + i)
                      (fetch_onoff.wowy_request 7 (season_label 2026) false true))
                 = inl e).
  { intros [|i] Hi; [by exists (HTTPError 503)|lia]. }
  assert (H3 : fetch_onoff.read_wowy
                 (ExtraSamples.second_time (sent OnOffSamples.empty_disk + 1)
                    (fetch_onoff.wowy_request 7 (season_label 2026) false true))
               = inr ExtraSamples.three_combos) by reflexivity.
  split; [exact H1|]. split; [exact H2|]. split; [exact H3|].
  exact (pull_unit_success ExtraSamples.second_time 2026 true false 7
           (fetch_onoff.mkBlock [] [] []) OnOffSamples.empty_disk 1
           ExtraSamples.three_combos H1 H2 H3).
Defined.

Lemma pull_unit_failure_witness :
  let request := fetch_onoff.wowy_request 7 (season_label 2026) true false in
  let acc := fetch_onoff.mkBlock [] [] [] in
  (∀ i, (i < Z.to_nat fetch_onoff.MAX_RETRIES)%nat →
        ∃ e, fetch_onoff.read_wowy
               (OnOffSamples.down (sent OnOffSamples.empty_disk + i) request) = inl e)
  ∧ ∃ acc' w',
      fetch_onoff.pull_unit OnOffSamples.down 2026 false true 7 acc
        OnOffSamples.empty_disk = (Some acc', w')
      ∧ fetch_onoff.team_frames acc' = fetch_onoff.team_frames acc
      ∧ fetch_onoff.vs_frames acc' = fetch_onoff.vs_frames acc
      ∧ fetch_onoff.fail_list acc' = fetch_onoff.fail_list acc ++ [(7%Z, "Opponent")]
      ∧ sent w' = (sent OnOffSamples.empty_disk + 5)%nat
      ∧ files w' = files OnOffSamples.empty_disk
      ∧ trace w' = trace OnOffSamples.empty_disk ++ wowy_attempts_trace request 5.
Proof.
  cbv zeta.
  assert (H : ∀ i, (i < Z.to_nat fetch_onoff.MAX_RETRIES)%nat →
            ∃ e, fetch_onoff.read_wowy
                   (OnOffSamples.down (sent OnOffSamples.empty_disk + i)
                      (fetch_onoff.wowy_request 7 (season_label 2026) true false))
                 = inl e).
  { intros i _. by exists ConnectionError. }
  split; [exact H|].
  exact (pull_unit_failure OnOffSamples.down 2026 false true 7
           (fetch_onoff.mkBlock [] [] []) OnOffSamples.empty_disk H).
Defined.
